(** * MarkItDown web front ends: the conversion orchestration glue

    A shallow embedding of the TypeScript of this repository:

    - [src/App.vue] (browser shape): [loadPyodideEnvironment],
      [startConversion], [formatSize];
    - the Nuxt page (server shape, client side): [startConversion],
      [formatSize];
    - the Nuxt API route (server shape): the [defineEventHandler] body.

    JavaScript strings are modelled as [string]; the only character the
    code inspects is the full stop, which is a single code unit in every
    encoding involved, so splitting a byte string and splitting a UTF-16
    string agree. *)

From Stdlib Require Import ZArith Lia Ascii Reals Lra.
From stdpp Require Import gmap strings list fin_maps pretty.

Local Open Scope Z_scope.

(** ** JavaScript values and string primitives *)

Module JS.

(** A value that is a string, or [null]/[undefined] ([None]). *)
Definition value := option string.

(** Truthiness of such a value: [undefined], [null] and the empty
    string are falsy, every other string is truthy. *)
Definition truthy (v : value) : bool :=
  match v with
  | Some s => negb (bool_decide (s = ""))
  | None => false
  end.

(** String concatenation with a possibly undefined operand:
    ['x' + undefined] is ["xundefined"]. *)
Definition to_string (v : value) : string := default "undefined" v.

Definition is_dot (c : ascii) : bool := bool_decide (c = "."%char).

(** [s.split('.')]: never empty; [''.split('.')] is [['']]. *)
Fixpoint split_dot (s : string) : list string :=
  match s with
  | EmptyString => [""]
  | String c r =>
      if is_dot c then "" :: split_dot r
      else match split_dot r with
           | h :: t => String c h :: t
           | [] => [String c ""]
           end
  end.

(** [parts.join('.')]. *)
Fixpoint join_dot (parts : list string) : string :=
  match parts with
  | [] => ""
  | [p] => p
  | p :: rest => p +:+ "." +:+ join_dot rest
  end.

(** [parts.pop()]: the removed last element ([undefined] on an empty
    array) and the array that is left. *)
Definition pop (parts : list string) : value * list string :=
  (last parts, removelast parts).

(** Does the string contain a full stop? *)
Fixpoint has_dot (s : string) : bool :=
  match s with
  | EmptyString => false
  | String c r => is_dot c || has_dot r
  end.

End JS.

(** ** Filename handling *)

(** Both [startConversion] functions:
    [const nameParts = file.value.name.split('.');
     if (nameParts.length > 1) nameParts.pop();
     resultFilename.value = nameParts.join('.') + '.md'] *)
Definition suggestedFilename (name : string) : string :=
  let nameParts := JS.split_dot name in
  let nameParts :=
    if bool_decide (1 < length nameParts)%nat then snd (JS.pop nameParts)
    else nameParts in
  JS.join_dot nameParts +:+ ".md".

(** The API route:
    [originalFilename ? ('.' + originalFilename.split('.').pop()) : undefined] *)
Definition fileExtension (originalFilename : JS.value) : JS.value :=
  if JS.truthy originalFilename
  then Some ("." +:+
             JS.to_string (fst (JS.pop (JS.split_dot (JS.to_string originalFilename)))))
  else None.

(** [App.vue]: [const tempPath = '/tmp/' + filename]. *)
Definition tempPath (filename : string) : string := "/tmp/" +:+ filename.

(** ** Size formatting *)

(** [formatSize] is the same function in [App.vue] and in the Nuxt page.

    JavaScript numbers are binary floating point. For a byte count (an
    integer below 2^53) every intermediate value of [formatSize] other
    than the logarithm is exact: [Math.pow(k, i)] is a power of two and
    [bytes / Math.pow(k, i)] a dyadic rational. The model therefore
    carries the quotient as an exact fraction and takes
    [Math.floor(Math.log(bytes) / Math.log(k))] to be the floor of the
    real base-1024 logarithm, computed on integers
    ([floor_log_k_real] relates the two).

    The rounded quotient of the two logarithms has that floor for
    every byte count from 1 up to 1024^4. Far above, just below a
    power of 1024, rounding can lift the quotient to the next integer
    (at 2^50 - 1 the double computation gives 5 where the real floor is
    4); statements about the unit chosen are therefore made for byte
    counts below 1024^4. *)
Module Size.

(** The value of [Math.floor(Math.log(bytes) / Math.log(k))]. *)
Inductive index :=
| INaN                (* the logarithm of a negative number *)
| INegInf             (* the logarithm of zero *)
| IInt (i : Z).

(** The value of [bytes / Math.pow(k, i)]. *)
Inductive quotient :=
| QNaN
| QFrac (num den : Z).

Definition k : Z := 1024.
Definition sizes : list string := ["B"; "KB"; "MB"; "GB"].

Definition floor_log_k (bytes : Z) : index :=
  if bytes <? 0 then INaN
  else if bytes =? 0 then INegInf
  else IInt (Z.log2 bytes / Z.log2 k).

(** [bytes / Math.pow(k, i)]: [Math.pow(k, NaN)] is [NaN];
    [Math.pow(k, -Infinity)] is [0], and a division by zero gives
    [NaN] for a zero numerator and an infinity otherwise (this case
    is never reached from [formatSize], which returns early on 0). *)
Definition div_pow (bytes : Z) (i : index) : quotient :=
  match i with
  | INaN => QNaN
  | INegInf => QNaN
  | IInt i => if 0 <=? i then QFrac bytes (k ^ i) else QFrac (bytes * k ^ (- i)) 1
  end.

(** [x.toFixed(2)] followed by [parseFloat]: the integer [n] with
    [n / 100] nearest to [x], the larger one on a tie; [None] is the
    string ["NaN"], which [parseFloat] reads back as [NaN]. *)
Definition toFixed2 (x : quotient) : option Z :=
  match x with
  | QNaN => None
  | QFrac num den => Some ((200 * num + den) / (2 * den))
  end.

Definition digit (d : Z) : string := pretty d.

(** Number to string, for a number [n / 100] with [0 <= n]: the
    shortest decimal numeral, that is, without trailing zeros in the
    fraction and without a bare decimal point. *)
Definition number_to_string (x : option Z) : string :=
  match x with
  | None => "NaN"
  | Some n =>
      let fp := n mod 100 in
      pretty (n / 100) +:+
      (if fp =? 0 then ""
       else "." +:+ digit (fp / 10) +:+
            (if fp mod 10 =? 0 then "" else digit (fp mod 10)))
  end.

(** [sizes[i]]: [undefined] off the array. *)
Definition sizes_at (i : index) : JS.value :=
  match i with
  | IInt i => if 0 <=? i then sizes !! Z.to_nat i else None
  | _ => None
  end.

(** [if (bytes === 0) return '0 B'; ...;
     return parseFloat((bytes / Math.pow(k, i)).toFixed(2)) + ' ' + sizes[i]] *)
Definition formatSize (bytes : Z) : string :=
  if bytes =? 0 then "0 B"
  else
    let i := floor_log_k bytes in
    number_to_string (toFixed2 (div_pow bytes i)) +:+ " " +:+
    JS.to_string (sizes_at i).

(** A string of the form "<number> <unit>" with a unit of [sizes]. *)
Definition well_formed (s : string) : Prop :=
  ∃ n u, 0 ≤ n ∧ u ∈ sizes ∧ s = number_to_string (Some n) +:+ " " +:+ u.

(** The last character of a string. *)
Fixpoint last_char (s : string) : option ascii :=
  match s with
  | EmptyString => None
  | String c EmptyString => Some c
  | String _ r => last_char r
  end.

End Size.

(** ** Thrown values *)

(** An [Error] object: its [name] and its [message]. *)
Record Error := mkError { err_name : string; err_message : string }.

(** [new Error(msg)]. *)
Definition new_Error (msg : string) : Error := mkError "Error" msg.

(** The template-literal operand [error.message || error]: the message
    when it is non-empty, otherwise the error converted to a string,
    which for an empty message is its name. Thrown values are taken to
    be [Error] objects; a thrown value of another kind with a truthy
    [message] is alerted with that message all the same, and one
    without is outside the model. *)
Definition message_or_error (e : Error) : string :=
  if bool_decide (err_message e = "") then err_name e else err_message e.

(** ** Browser shape: [src/App.vue] *)

Module Browser.

(** The file system of an interpreter: paths to contents. *)
Abbreviation FS := (gmap string (list Byte.byte)).

(** The interpreter object that [loadPyodide()] resolves to, with the
    parts of it that the later provisioning steps change. [rt_FS]
    records the files written through [FS.writeFile] by the page; the
    files the interpreter and its packages keep for themselves are not
    part of the model. *)
Record Runtime := mkRuntime {
  micropip : bool;              (* loadPackage("micropip") and pyimport *)
  mock_modules : bool;          (* sys.modules["onnxruntime"|"magika"] *)
  base_packages : bool;         (* pandas, beautifulsoup4, micropip *)
  optional_deps : bool;         (* the micropip.install([...]) list *)
  markitdown : bool;            (* micropip.install('markitdown', deps=False) *)
  convert_file_defined : bool;  (* globals has convert_file *)
  rt_FS : FS
}.

Definition fresh_runtime : Runtime :=
  mkRuntime false false false false false false ∅.

(** The steps of first-time construction, in source order. *)
Inductive Step :=
| LoadRuntime | LoadMicropip | MockModules | LoadPackages
| InstallOptional | InstallMarkitdown | RegisterWrapper.

Global Instance Step_eq_dec : EqDecision Step.
Proof. solve_decision. Defined.

Definition all_steps : list Step :=
  [LoadRuntime; LoadMicropip; MockModules; LoadPackages;
   InstallOptional; InstallMarkitdown; RegisterWrapper].

(** What the network and the interpreter do at each step of one call:
    [None] when the step succeeds, the thrown error otherwise. *)
Definition Oracle := Step → option Error.

Definition all_ok : Oracle := λ _, None.

(** An oracle that fails the given step with the given message. *)
Definition fail_at (s : Step) (msg : string) : Oracle :=
  λ s', if decide (s' = s) then Some (new_Error msg) else None.

(** The selected [File]. *)
Record File := mkFile { name : string; contents : list Byte.byte }.

(** Module-level and reactive state of the component. Interpreter
    objects live in [heap]; the module variable [pyodide] holds a
    reference into it ([None] is [null]). [work] records the
    provisioning steps that were started, most recent last. *)
Record World := mkWorld {
  heap : gmap nat Runtime;
  pyodide : option nat;
  isDownloadingModel : bool;
  work : list Step;
  file : option File;
  isProcessing : bool;
  resultText : string;
  resultFilename : string;
  alerts : list string
}.

Definition init : World :=
  mkWorld ∅ None false [] None false "" "" [].

Definition set_heap (f : gmap nat Runtime → gmap nat Runtime) (w : World) :=
  mkWorld (f (heap w)) (pyodide w) (isDownloadingModel w) (work w) (file w)
          (isProcessing w) (resultText w) (resultFilename w) (alerts w).
Definition set_pyodide (r : option nat) (w : World) :=
  mkWorld (heap w) r (isDownloadingModel w) (work w) (file w)
          (isProcessing w) (resultText w) (resultFilename w) (alerts w).
Definition set_isDownloadingModel (b : bool) (w : World) :=
  mkWorld (heap w) (pyodide w) b (work w) (file w)
          (isProcessing w) (resultText w) (resultFilename w) (alerts w).
Definition log_work (s : Step) (w : World) :=
  mkWorld (heap w) (pyodide w) (isDownloadingModel w) (work w ++ [s]) (file w)
          (isProcessing w) (resultText w) (resultFilename w) (alerts w).
Definition set_file (f : option File) (w : World) :=
  mkWorld (heap w) (pyodide w) (isDownloadingModel w) (work w) f
          (isProcessing w) (resultText w) (resultFilename w) (alerts w).
Definition set_isProcessing (b : bool) (w : World) :=
  mkWorld (heap w) (pyodide w) (isDownloadingModel w) (work w) (file w)
          b (resultText w) (resultFilename w) (alerts w).
Definition set_resultText (t : string) (w : World) :=
  mkWorld (heap w) (pyodide w) (isDownloadingModel w) (work w) (file w)
          (isProcessing w) t (resultFilename w) (alerts w).
Definition set_resultFilename (t : string) (w : World) :=
  mkWorld (heap w) (pyodide w) (isDownloadingModel w) (work w) (file w)
          (isProcessing w) (resultText w) t (alerts w).
Definition alert (msg : string) (w : World) :=
  mkWorld (heap w) (pyodide w) (isDownloadingModel w) (work w) (file w)
          (isProcessing w) (resultText w) (resultFilename w) (alerts w ++ [msg]).

(** *** Computations that change the world and may throw *)

Definition M (A : Type) : Type := World → World * (A + Error).

Definition ret {A} (a : A) : M A := λ w, (w, inl a).
Definition throw {A} (e : Error) : M A := λ w, (w, inr e).
Definition bind {A B} (f : A → M B) (m : M A) : M B :=
  λ w, match m w with
       | (w', inl a) => f a w'
       | (w', inr e) => (w', inr e)
       end.
Global Instance M_ret : MRet M := @ret.
Global Instance M_bind : MBind M := @bind.
Definition modify (f : World → World) : M unit := λ w, (f w, inl tt).
Definition get : M World := λ w, (w, inl w).

(** [try { m } catch (e) { h e }]. *)
Definition try_catch {A} (m : M A) (h : Error → M A) : M A :=
  λ w, match m w with
       | (w', inl a) => (w', inl a)
       | (w', inr e) => h e w'
       end.

(** [try { m } finally { f }], for a [finally] block that only
    assigns. *)
Definition finally {A} (m : M A) (f : World → World) : M A :=
  λ w, let '(w', r) := m w in (f w', r).

(** One awaited provisioning step acting on the interpreter [h]: it
    is recorded, and either throws what the oracle says or applies
    its effect to the interpreter object. *)
Definition step (o : Oracle) (s : Step) (h : nat) (effect : Runtime → Runtime)
  : M unit :=
  modify (log_work s) ;;
  match o s with
  | Some e => throw e
  | None => modify (set_heap (alter effect h))
  end.

(** [pyodide = await loadPyodide()]: a new interpreter object is
    allocated and the module variable is assigned only when the
    promise resolves. *)
Definition loadPyodide (o : Oracle) : M nat :=
  modify (log_work LoadRuntime) ;;
  match o LoadRuntime with
  | Some e => throw e
  | None =>
      w ← get;
      let h := fresh (dom (heap w)) in
      modify (set_heap <[h := fresh_runtime]>) ;;
      modify (set_pyodide (Some h)) ;;
      ret h
  end.

Definition set_micropip (r : Runtime) : Runtime :=
  mkRuntime true (mock_modules r) (base_packages r) (optional_deps r)
            (markitdown r) (convert_file_defined r) (rt_FS r).
Definition set_mock_modules (r : Runtime) : Runtime :=
  mkRuntime (micropip r) true (base_packages r) (optional_deps r)
            (markitdown r) (convert_file_defined r) (rt_FS r).
Definition set_base_packages (r : Runtime) : Runtime :=
  mkRuntime (micropip r) (mock_modules r) true (optional_deps r)
            (markitdown r) (convert_file_defined r) (rt_FS r).
Definition set_optional_deps (r : Runtime) : Runtime :=
  mkRuntime (micropip r) (mock_modules r) (base_packages r) true
            (markitdown r) (convert_file_defined r) (rt_FS r).
Definition set_markitdown (r : Runtime) : Runtime :=
  mkRuntime (micropip r) (mock_modules r) (base_packages r) (optional_deps r)
            true (convert_file_defined r) (rt_FS r).
Definition set_convert_file (r : Runtime) : Runtime :=
  mkRuntime (micropip r) (mock_modules r) (base_packages r) (optional_deps r)
            (markitdown r) true (rt_FS r).
Definition set_FS (f : FS → FS) (r : Runtime) : Runtime :=
  mkRuntime (micropip r) (mock_modules r) (base_packages r) (optional_deps r)
            (markitdown r) (convert_file_defined r) (f (rt_FS r)).

(** [loadPyodideEnvironment]. *)
Definition loadPyodideEnvironment (o : Oracle) : M nat :=
  w ← get;
  match pyodide w with
  | Some h => ret h
  | None =>
      modify (set_isDownloadingModel true) ;;
      finally
        (try_catch
           (h ← loadPyodide o;
            step o LoadMicropip h set_micropip ;;
            step o MockModules h set_mock_modules ;;
            step o LoadPackages h set_base_packages ;;
            try_catch (step o InstallOptional h set_optional_deps)
                      (λ _, ret tt) ;;
            step o InstallMarkitdown h set_markitdown ;;
            step o RegisterWrapper h set_convert_file ;;
            ret h)
           (λ e, throw (new_Error
              ("Failed to initialize Python environment: " +:+ err_message e))))
        (set_isDownloadingModel false)
  end.

(** Sequential calls, one oracle per call; the results in call order. *)
Fixpoint ensureReady_many (os : list Oracle) (w : World)
  : World * list (nat + Error) :=
  match os with
  | [] => (w, [])
  | o :: os =>
      let '(w1, r) := loadPyodideEnvironment o w in
      let '(w2, rs) := ensureReady_many os w1 in
      (w2, r :: rs)
  end.

(** What a call of the registered Python function does. *)
Inductive PyResult :=
| PyReturn (v : JS.value)
| PyRaise (e : Error).

Section Conversion.

(** The external converter behind [convert_file]: it reads the
    interpreter's file system at the given path. The Python it runs is
    taken to leave the recorded state of the interpreter as it found
    it; what it returns or raises is arbitrary. *)
Variable convert_file : FS → string → PyResult.

(** What [FS.writeFile] throws for a path it refuses (a directory,
    a missing parent), [None] for a path it accepts. *)
Variable writeFile_fault : string → option Error.

(** [py.FS.writeFile(tempPath, data)]. *)
Definition FS_writeFile (h : nat) (path : string) (data : list Byte.byte)
  : M unit :=
  match writeFile_fault path with
  | Some e => throw e
  | None => modify (set_heap (alter (set_FS <[path := data]>) h))
  end.

(** [py.FS.unlink(tempPath)]: throws when there is no such file. *)
Definition FS_unlink (h : nat) (path : string) : M unit :=
  w ← get;
  match heap w !! h ≫= λ r, rt_FS r !! path with
  | Some _ => modify (set_heap (alter (set_FS (delete path)) h))
  | None => throw (mkError "ErrnoError" "FS error")
  end.

(** [py.globals.get('convert_file')] followed by the call
    [convertFunc(tempPath)]: calling [undefined] is a [TypeError]. *)
Definition call_convert_file (h : nat) (path : string) : M JS.value :=
  w ← get;
  match heap w !! h with
  | Some r =>
      if convert_file_defined r then
        match convert_file (rt_FS r) path with
        | PyReturn v => ret v
        | PyRaise e => throw e
        end
      else throw (mkError "TypeError" "convertFunc is not a function")
  | None => throw (mkError "TypeError" "py is undefined")
  end.

(** [startConversion]. *)
Definition startConversion (o : Oracle) : M unit :=
  w ← get;
  match file w with
  | None => ret tt
  | Some f =>
      modify (set_isProcessing true) ;;
      modify (set_resultText "") ;;
      finally
        (try_catch
           (py ← loadPyodideEnvironment o;
            let filename := name f in
            let tempPath := tempPath filename in
            FS_writeFile py tempPath (contents f) ;;
            markdown ← call_convert_file py tempPath;
            try_catch (FS_unlink py tempPath) (λ _, ret tt) ;;
            if JS.truthy markdown then
              modify (set_resultText (JS.to_string markdown)) ;;
              modify (set_resultFilename (suggestedFilename (name f)))
            else throw (new_Error "Conversion returned empty result"))
           (λ error,
              modify (alert ("Conversion Failed: " +:+ message_or_error error))))
        (set_isProcessing false)
  end.

(** The paths present in the file system of the cached interpreter. *)
Definition staged (w : World) : gset string :=
  match pyodide w ≫= λ h, heap w !! h with
  | Some r => dom (rt_FS r)
  | None => ∅
  end.

End Conversion.

(** The world in which [startConversion] calls the provisioner. *)
Definition entering (w : World) : World :=
  set_resultText "" (set_isProcessing true w).

(** The world after the write, the converter's return and the
    unlink, before the result is looked at. *)
Definition unstaged (h : nat) (path : string) (data : list Byte.byte)
           (w1 : World) : World :=
  set_heap (alter (set_FS (delete path)) h)
    (set_heap (alter (set_FS <[path := data]>) h) w1).

End Browser.

(** ** Server shape: the API route *)

Module Server.

(** The temporary directory of the server process. *)
Abbreviation FS := (gmap string (list Byte.byte)).

(** An entry of the parsed upload: formidable's [File] with the fields
    the handler reads, and its size. *)
Record UploadedFile := mkUploadedFile {
  filepath : JS.value;
  originalFilename : JS.value;
  size : Z
}.

(** The [files] object: field name to array of files. *)
Abbreviation Files := (gmap string (list UploadedFile)).

Record Options := mkOptions { maxFileSize : Z; includeFields : bool }.

(** The options the handler passes to [readFiles]. *)
Definition readFiles_options : Options :=
  mkOptions (100 * 1024 * 1024) true.

(** What [await readFiles(event, options)] does: it rejects, or it
    resolves to an object whose [files] may be missing. *)
Inductive ReadOutcome :=
| ReadRejected (e : Error)
| ReadResolved (files : option Files).

(** The value [markitdown.convert] resolves to: [null]/[undefined], or
    an object with a [textContent] property. *)
Record Result := mkResult { textContent : JS.value }.

Inductive ConvertOutcome :=
| ConvertRejected (message : JS.value)
| ConvertResolved (result : option Result).

(** The response body of a successful request. *)
Record Payload := mkPayload {
  success : bool;
  p_textContent : JS.value;
  filename : JS.value
}.

(** How the handler ends: it returns a body, throws an error made by
    [createError], or lets a foreign error through. *)
Inductive Outcome :=
| Returned (body : Payload)
| Created (statusCode : Z) (statusMessage : string)
| Propagated (e : Error).

(** The status line of the response: a returned body is sent with 200,
    an error made by [createError] with its [statusCode]. *)
Definition status (o : Outcome) : option Z :=
  match o with
  | Returned _ => Some 200
  | Created c _ => Some c
  | Propagated _ => None
  end.

(** Interactions with the converter and with the file system. *)
Inductive Event :=
| NewMarkItDown
| Convert (path : string) (fileExtension : JS.value)
| ExistsSync (path : string).

Section Handler.

Variable Request : Type.

(** [readFiles] of h3-formidable: it parses the multipart body and
    writes each file part into the temporary directory. *)
Variable readFiles : Request → Options → FS → FS * ReadOutcome.

(** [new MarkItDown()]: the error it throws, if any. *)
Variable new_MarkItDown : option Error.

(** [markitdown.convert(filePath, { fileExtension })]; it reads the
    temporary directory. *)
Variable convert : FS → string → JS.value → ConvertOutcome.

(** [files.file[0]], when [files], [files.file] and [files.file[0]]
    are all truthy. *)
Definition first_file (files : option Files) : option UploadedFile :=
  files ≫= λ fs, fs !! "file" ≫= λ arr, arr !! 0%nat.

(** The [try] block. A [createError] thrown inside it is caught by
    the [catch] like any other error; its [message] is its
    [statusMessage]. *)
Definition try_block (fs : FS) (filePath : string)
           (originalFilename : JS.value)
  : list Event * (Payload + JS.value) :=
  match new_MarkItDown with
  | Some e => ([NewMarkItDown], inr (Some (err_message e)))
  | None =>
      let fileExtension := fileExtension originalFilename in
      let ev := [NewMarkItDown; Convert filePath fileExtension] in
      match convert fs filePath fileExtension with
      | ConvertRejected m => (ev, inr m)
      | ConvertResolved None =>
          (ev, inr (Some "Conversion returned empty result"))
      | ConvertResolved (Some result) =>
          (ev, inl (mkPayload true (textContent result) originalFilename))
      end
  end.

(** The [finally] block: [fs.existsSync(filePath)] guards an empty
    body (the [unlinkSync] call is commented out), so the directory
    is left as it is. *)
Definition finally_block (fs : FS) (filePath : string) : list Event * FS :=
  ([ExistsSync filePath], if bool_decide (is_Some (fs !! filePath)) then fs else fs).

(** The event handler: the directory it leaves, its interactions and
    its outcome. *)
Definition handler (event : Request) (fs : FS) : FS * list Event * Outcome :=
  match readFiles event readFiles_options fs with
  | (fs1, ReadRejected e) => (fs1, [], Propagated e)
  | (fs1, ReadResolved files) =>
      match first_file files with
      | None => (fs1, [], Created 400 "No file uploaded")
      | Some uploadedFile =>
          let filePath := filepath uploadedFile in
          let originalFilename := originalFilename uploadedFile in
          if negb (JS.truthy filePath)
          then (fs1, [], Created 500 "File upload failed, no path")
          else
            let '(ev, r) := try_block fs1 (JS.to_string filePath) originalFilename in
            let '(ev', fs2) := finally_block fs1 (JS.to_string filePath) in
            (fs2, ev ++ ev',
              match r with
              | inl body => Returned body
              | inr m => Created 500 ("Conversion failed: " +:+ JS.to_string m)
              end)
      end
  end.

(** The contract of the reader's size limit: no file it hands over
    is larger than the [maxFileSize] it was given. *)
Definition honours_maxFileSize : Prop :=
  ∀ event opts fs fs1 (files : Files) field arr up,
    readFiles event opts fs = (fs1, ReadResolved (Some files)) →
    files !! field = Some arr → up ∈ arr →
    size up ≤ maxFileSize opts.

(** The directory and the parsed upload as [readFiles] leaves them. *)
Definition staged_upload (event : Request) (fs : FS) : FS * option UploadedFile :=
  match readFiles event readFiles_options fs with
  | (fs1, ReadRejected _) => (fs1, None)
  | (fs1, ReadResolved files) => (fs1, first_file files)
  end.

End Handler.

End Server.

(** ** Stand-ins for the external collaborators, used in examples *)

Module Demo.

(** A request with at most one file part, in the field "file": its
    original name and its bytes. *)
Definition Request : Type := option (string * list Byte.byte).

(** A multipart reader that honours [maxFileSize] and writes the part
    to a fixed temporary path. *)
Definition readFiles (req : Request) (opts : Server.Options)
           (fs : Server.FS) : Server.FS * Server.ReadOutcome :=
  match req with
  | None => (fs, Server.ReadResolved (Some ∅))
  | Some (original, data) =>
      let size := Z.of_nat (length data) in
      if size <=? Server.maxFileSize opts
      then (<["/tmp/upload_1" := data]> fs,
            Server.ReadResolved
              (Some {["file" :=
                        [Server.mkUploadedFile (Some "/tmp/upload_1")
                                               (Some original) size]]}))
      else (fs, Server.ReadRejected (new_Error "maxFileSize exceeded"))
  end.

(** A server-side converter that echoes a heading for a non-empty
    file, gives an empty text for an empty file, and has no result
    for a missing one. *)
Definition convert (fs : Server.FS) (path : string) (hint : JS.value)
  : Server.ConvertOutcome :=
  match fs !! path with
  | Some [] => Server.ConvertResolved (Some (Server.mkResult (Some "")))
  | Some _ => Server.ConvertResolved (Some (Server.mkResult (Some "# Title")))
  | None => Server.ConvertResolved None
  end.

(** The same converter behind the browser's [convert_file]; it
    raises for a missing file. *)
Definition convert_file (fs : Browser.FS) (path : string) : Browser.PyResult :=
  match fs !! path with
  | Some [] => Browser.PyReturn (Some "")
  | Some _ => Browser.PyReturn (Some "# Title")
  | None => Browser.PyRaise (mkError "PythonError" "FileNotFoundError")
  end.

Definition raising_convert_file (fs : Browser.FS) (path : string)
  : Browser.PyResult :=
  Browser.PyRaise (mkError "PythonError" "UnsupportedFormatException").

Definition writeFile_fault (path : string) : option Error := None.

(** A page on which a file has been selected. *)
Definition selected (name : string) (data : list Byte.byte) : Browser.World :=
  Browser.set_file (Some (Browser.mkFile name data)) Browser.init.

End Demo.

(** ** The page around the conversion call: [src/App.vue] *)

Module Page.

(** The component state: the world of the conversion call, the two
    refs it does not read ([activeTab], [dragOver]), the clipboard and
    the downloads the page has triggered (the [download] attribute and
    the text of the blob). *)
Record State := mkState {
  world : Browser.World;
  activeTab : nat;
  dragOver : bool;
  clipboard : option string;
  downloads : list (string * string)
}.

Definition init : State := mkState Browser.init 0 false None [].

Definition set_world (w : Browser.World) (p : State) : State :=
  mkState w (activeTab p) (dragOver p) (clipboard p) (downloads p).
Definition set_activeTab (i : nat) (p : State) : State :=
  mkState (world p) i (dragOver p) (clipboard p) (downloads p).
Definition set_dragOver (b : bool) (p : State) : State :=
  mkState (world p) (activeTab p) b (clipboard p) (downloads p).
Definition set_clipboard (t : string) (p : State) : State :=
  mkState (world p) (activeTab p) (dragOver p) (Some t) (downloads p).
Definition add_download (d : string * string) (p : State) : State :=
  mkState (world p) (activeTab p) (dragOver p) (clipboard p) (downloads p ++ [d]).

Section Handlers.

Variable convert_file : Browser.FS → string → Browser.PyResult.
Variable writeFile_fault : string → option Error.

(** [setFile]: the file is stored, the result is reset, the source tab
    is shown, and the conversion is started; the call is not awaited
    and is modelled as running to its end before the next event. *)
Definition setFile (o : Browser.Oracle) (f : Browser.File) (p : State) : State :=
  let w := Browser.set_file (Some f) (world p) in
  let w := Browser.set_resultText "" w in
  let w := Browser.set_resultFilename "" w in
  let p := set_activeTab 0 (set_world w p) in
  set_world (Browser.startConversion convert_file writeFile_fault o w).1 p.

(** [files && files[0]] for a [FileList] that may be missing. *)
Definition first_of (files : option (list Browser.File)) : option Browser.File :=
  files ≫= head.

(** [handleDrop]: [event.dataTransfer?.files]. *)
Definition handleDrop (o : Browser.Oracle) (files : option (list Browser.File))
           (p : State) : State :=
  let p := set_dragOver false p in
  match first_of files with
  | Some f => setFile o f p
  | None => p
  end.

(** [handleFileChange]: [input.files]. *)
Definition handleFileChange (o : Browser.Oracle)
           (files : option (list Browser.File)) (p : State) : State :=
  match first_of files with
  | Some f => setFile o f p
  | None => p
  end.

(** The remove button: [file = null; resultText = '']. *)
Definition removeFile (p : State) : State :=
  set_world (Browser.set_resultText "" (Browser.set_file None (world p))) p.

(** [copyToClipboard]. *)
Definition copyToClipboard (p : State) : State :=
  if bool_decide (Browser.resultText (world p) = "") then p
  else
    let p := set_clipboard (Browser.resultText (world p)) p in
    set_world (Browser.alert "Copied to clipboard!" (world p)) p.

(** [downloadFile]: [a.download = resultFilename.value || 'converted.md']. *)
Definition downloadFile (p : State) : State :=
  if bool_decide (Browser.resultText (world p) = "") then p
  else
    let download :=
      if bool_decide (Browser.resultFilename (world p) = "")
      then "converted.md" else Browser.resultFilename (world p) in
    add_download (download, Browser.resultText (world p)) p.

(** What the user can do to the page. *)
Inductive Action :=
| Drop (o : Browser.Oracle) (files : option (list Browser.File))
| FileChange (o : Browser.Oracle) (files : option (list Browser.File))
| Remove
| SelectTab (i : nat)
| DragOver
| DragLeave
| Copy
| Download.

Definition act (a : Action) (p : State) : State :=
  match a with
  | Drop o files => handleDrop o files p
  | FileChange o files => handleFileChange o files p
  | Remove => removeFile p
  | SelectTab i => set_activeTab i p
  | DragOver => set_dragOver true p
  | DragLeave => set_dragOver false p
  | Copy => copyToClipboard p
  | Download => downloadFile p
  end.

(** A session: the actions in order, from the initial page. *)
Definition run (actions : list Action) : State :=
  foldl (λ p a, act a p) init actions.

End Handlers.

End Page.

(** ** The page of the server shape: the Nuxt page *)

Module Nuxt.

(** A notification added through [useToast().add]. *)
Record Toast := mkToast { title : string; description : string; color : string }.

(** The body a successful [$fetch] resolves to, with the three
    properties the route sends. *)
Record Data := mkData {
  success : bool;
  textContent : JS.value;
  filename : JS.value
}.

(** What [await $fetch('/api/markitdown', ...)] does: it resolves to
    the body, or throws an error whose [data?.statusMessage] may be
    missing. *)
Inductive FetchOutcome :=
| Fetched (data : Data)
| FetchFailed (statusMessage : JS.value).

(** The component state, with the clipboard and the downloads the page
    has triggered. [resultText] holds whatever the response carried. *)
Record State := mkState {
  file : option Browser.File;
  isProcessing : bool;
  resultText : JS.value;
  resultFilename : string;
  activeTab : nat;
  toasts : list Toast;
  clipboard : option string;
  downloads : list (string * string)
}.

Definition init : State := mkState None false (Some "") "" 0 [] None [].

Definition set_file (f : option Browser.File) (p : State) : State :=
  mkState f (isProcessing p) (resultText p) (resultFilename p) (activeTab p)
          (toasts p) (clipboard p) (downloads p).
Definition set_isProcessing (b : bool) (p : State) : State :=
  mkState (file p) b (resultText p) (resultFilename p) (activeTab p)
          (toasts p) (clipboard p) (downloads p).
Definition set_resultText (t : JS.value) (p : State) : State :=
  mkState (file p) (isProcessing p) t (resultFilename p) (activeTab p)
          (toasts p) (clipboard p) (downloads p).
Definition set_resultFilename (n : string) (p : State) : State :=
  mkState (file p) (isProcessing p) (resultText p) n (activeTab p)
          (toasts p) (clipboard p) (downloads p).
Definition set_activeTab (i : nat) (p : State) : State :=
  mkState (file p) (isProcessing p) (resultText p) (resultFilename p) i
          (toasts p) (clipboard p) (downloads p).
Definition add_toast (t : Toast) (p : State) : State :=
  mkState (file p) (isProcessing p) (resultText p) (resultFilename p)
          (activeTab p) (toasts p ++ [t]) (clipboard p) (downloads p).
Definition set_clipboard (t : string) (p : State) : State :=
  mkState (file p) (isProcessing p) (resultText p) (resultFilename p)
          (activeTab p) (toasts p) (Some t) (downloads p).
Definition add_download (d : string * string) (p : State) : State :=
  mkState (file p) (isProcessing p) (resultText p) (resultFilename p)
          (activeTab p) (toasts p) (clipboard p) (downloads p ++ [d]).

Definition toast_success : Toast :=
  mkToast "转换成功" "文件已成功转换为 Markdown 格式" "green".
Definition toast_copied : Toast :=
  mkToast "已复制" "Markdown 内容已复制到剪贴板" "primary".

(** [error.data?.statusMessage || '服务器处理出错，请稍后重试']. *)
Definition toast_failure (statusMessage : JS.value) : Toast :=
  mkToast "转换失败"
          (if JS.truthy statusMessage then JS.to_string statusMessage
           else "服务器处理出错，请稍后重试")
          "red".

Section Handlers.

(** The request the page sends for a file, as the outcome of
    [$fetch]. *)
Variable fetch : Browser.File → FetchOutcome.

(** [startConversion]. *)
Definition startConversion (p : State) : State :=
  match file p with
  | None => p
  | Some f =>
      let p := set_resultText (Some "") (set_isProcessing true p) in
      let p :=
        match fetch f with
        | Fetched data =>
            if success data then
              let p := set_resultText (textContent data) p in
              let p := set_resultFilename (suggestedFilename (Browser.name f)) p in
              add_toast toast_success p
            else p
        | FetchFailed statusMessage => add_toast (toast_failure statusMessage) p
        end in
      set_isProcessing false p
  end.

(** [setFile]: no conversion is started here. *)
Definition setFile (f : Browser.File) (p : State) : State :=
  set_activeTab 0
    (set_resultFilename "" (set_resultText (Some "") (set_file (Some f) p))).

(** [handleDrop] and [handleFileChange]: [files && files[0]]. *)
Definition handleFiles (files : option (list Browser.File)) (p : State) : State :=
  match files ≫= head with
  | Some f => setFile f p
  | None => p
  end.

(** [copyToClipboard]. *)
Definition copyToClipboard (p : State) : State :=
  if JS.truthy (resultText p)
  then add_toast toast_copied (set_clipboard (JS.to_string (resultText p)) p)
  else p.

(** [downloadFile]: [a.download = resultFilename.value || 'converted.md']. *)
Definition downloadFile (p : State) : State :=
  if JS.truthy (resultText p)
  then
    let download :=
      if bool_decide (resultFilename p = "") then "converted.md"
      else resultFilename p in
    add_download (download, JS.to_string (resultText p)) p
  else p.

(** What the user can do to the page; the convert button is disabled
    without a file. *)
Inductive Action :=
| Files (files : option (list Browser.File))
| Remove
| Convert
| SelectTab (i : nat)
| Copy
| Download.

Definition act (a : Action) (p : State) : State :=
  match a with
  | Files files => handleFiles files p
  | Remove => set_file None p
  | Convert => startConversion p
  | SelectTab i => set_activeTab i p
  | Copy => copyToClipboard p
  | Download => downloadFile p
  end.

Definition run (actions : list Action) : State :=
  foldl (λ p a, act a p) init actions.

End Handlers.

End Nuxt.

(** ** The primitives on concrete inputs *)

Example split_dot_examples :
  JS.split_dot "report.v2.pdf" = ["report"; "v2"; "pdf"] ∧
  JS.split_dot "README" = ["README"] ∧
  JS.split_dot "" = [""] ∧
  JS.split_dot ".bashrc" = [""; "bashrc"] ∧
  JS.split_dot "trailing." = ["trailing"; ""].
Proof. repeat split. Qed.

Example join_dot_examples :
  JS.join_dot ["report"; "v2"] = "report.v2" ∧
  JS.join_dot [""] = "" ∧ JS.join_dot [] = "".
Proof. repeat split. Qed.

Example suggestedFilename_examples :
  suggestedFilename ".bashrc" = ".md" ∧
  suggestedFilename "trailing." = "trailing.md" ∧
  suggestedFilename "" = ".md".
Proof. repeat split. Qed.

Example fileExtension_examples :
  fileExtension (Some "a.b.pdf") = Some ".pdf" ∧
  fileExtension (Some "trailing.") = Some "." ∧
  fileExtension (Some "") = None ∧
  fileExtension None = None.
Proof. repeat split. Qed.

Example formatSize_examples :
  Size.formatSize 1 = "1 B" ∧
  Size.formatSize 1023 = "1023 B" ∧
  Size.formatSize 1024 = "1 KB" ∧
  Size.formatSize 1100 = "1.07 KB" ∧
  Size.formatSize 1234567 = "1.18 MB" ∧
  Size.formatSize 1048575 = "1024 KB" ∧
  Size.formatSize (1024 ^ 4 - 1) = "1024 GB" ∧
  Size.formatSize (1024 ^ 4) = "1 undefined" ∧
  Size.formatSize (-5) = "NaN undefined".
Proof. vm_compute. repeat split. Qed.

(** A successful conversion in the browser: the text and the output
    name are set, nothing is alerted, nothing stays staged. *)
Example startConversion_example :
  let w := (Browser.startConversion Demo.convert_file Demo.writeFile_fault
              Browser.all_ok
              (Demo.selected "report.v2.pdf" [Byte.x25; Byte.x50])).1 in
  Browser.resultText w = "# Title" ∧
  Browser.resultFilename w = "report.v2.md" ∧
  Browser.alerts w = [] ∧ Browser.isProcessing w = false ∧
  elements (Browser.staged w) = [].
Proof. vm_compute. repeat split. Qed.

(** An upload above the limit never reaches the handler's own code. *)
Example handler_rejected_example :
  Demo.readFiles (Some ("big.bin", [Byte.x00; Byte.x00]))
                 (Server.mkOptions 1 true) ∅ =
    (∅, Server.ReadRejected (new_Error "maxFileSize exceeded")).
Proof. reflexivity. Qed.

(** ** Facts about the string primitives *)

Section SplitJoin.

Lemma string_app_nil_l (s : string) : "" +:+ s = s.
Proof. reflexivity. Qed.

Lemma string_app_cons c (r s : string) :
  String c r +:+ s = String c (r +:+ s).
Proof. reflexivity. Qed.

Lemma string_app_assoc (a b c : string) : (a +:+ b) +:+ c = a +:+ b +:+ c.
Proof.
  induction a as [|x a IH]; [done|].
  by rewrite !string_app_cons, IH.
Qed.

Lemma string_app_nil_r (a : string) : a +:+ "" = a.
Proof.
  induction a as [|x a IH]; [done|]. by rewrite string_app_cons, IH.
Qed.

Lemma split_dot_nonempty s : JS.split_dot s ≠ [].
Proof.
  destruct s as [|c r]; simpl; [done|].
  destruct (JS.is_dot c); [done|].
  by destruct (JS.split_dot r).
Qed.

Lemma split_dot_length s : (1 ≤ length (JS.split_dot s))%nat.
Proof.
  pose proof (split_dot_nonempty s).
  destruct (JS.split_dot s); simpl; [done|lia].
Qed.

Lemma split_dot_no_dot s : JS.has_dot s = false → JS.split_dot s = [s].
Proof.
  induction s as [|c r IH]; simpl; [done|].
  intros [Hc Hr]%orb_false_iff. rewrite Hc, (IH Hr). done.
Qed.

Lemma split_dot_has_dot s :
  JS.has_dot s = bool_decide (1 < length (JS.split_dot s))%nat.
Proof.
  induction s as [|c r IH]; simpl; [done|].
  pose proof (split_dot_length r) as Hlen.
  destruct (JS.is_dot c); simpl.
  - symmetry. apply bool_decide_eq_true. lia.
  - rewrite IH. destruct (JS.split_dot r) as [|h t]; simpl in *; [lia|].
    apply bool_decide_ext. lia.
Qed.

(** Splitting distributes over a separating full stop. *)
Lemma split_dot_app s1 s2 :
  JS.split_dot (s1 +:+ "." +:+ s2) = JS.split_dot s1 ++ JS.split_dot s2.
Proof.
  induction s1 as [|c r IH].
  - by rewrite string_app_nil_l.
  - rewrite string_app_cons. simpl.
    rewrite IH. pose proof (split_dot_nonempty r).
    destruct (JS.is_dot c); [done|]. by destruct (JS.split_dot r).
Qed.

(** Prefixing a dot-free string only changes the first segment. *)
Lemma split_dot_prefix p s :
  JS.has_dot p = false →
  JS.split_dot (p +:+ s) =
    match JS.split_dot s with
    | h :: t => (p +:+ h) :: t
    | [] => [p]
    end.
Proof.
  induction p as [|c r IH]; simpl.
  - intros _. rewrite string_app_nil_l.
    pose proof (split_dot_nonempty s). by destruct (JS.split_dot s).
  - intros [Hc Hr]%orb_false_iff.
    change (JS.split_dot (String c (r +:+ s)) = 
            match JS.split_dot s with
            | h :: t => String c (r +:+ h) :: t
            | [] => [String c r]
            end).
    simpl. rewrite Hc, (IH Hr).
    pose proof (split_dot_nonempty s). by destruct (JS.split_dot s).
Qed.

Lemma join_dot_cons p rest :
  rest ≠ [] → JS.join_dot (p :: rest) = p +:+ "." +:+ JS.join_dot rest.
Proof. by destruct rest. Qed.

Lemma join_split_dot s : JS.join_dot (JS.split_dot s) = s.
Proof.
  induction s as [|c r IH]; simpl; [done|].
  pose proof (split_dot_nonempty r) as Hne.
  destruct (JS.is_dot c) eqn:Hc.
  - apply bool_decide_eq_true in Hc as ->.
    rewrite join_dot_cons, IH by done. done.
  - destruct (JS.split_dot r) as [|h t]; [done|].
    rewrite <- IH. destruct t as [|h' t]; [done|].
    by rewrite !join_dot_cons, string_app_cons by done.
Qed.

End SplitJoin.

(** ** Output filename, format hint and staging path *)

Section Filenames.

Lemma removelast_snoc {A} (l : list A) (x : A) : removelast (l ++ [x]) = l.
Proof. by rewrite removelast_app, app_nil_r by done. Qed.

Lemma split_dot_stem_ext stem ext :
  JS.has_dot ext = false →
  JS.split_dot (stem +:+ "." +:+ ext) = JS.split_dot stem ++ [ext].
Proof. intros Hext. by rewrite split_dot_app, (split_dot_no_dot ext). Qed.

Lemma suggestedFilename_ext stem ext :
  JS.has_dot ext = false →
  suggestedFilename (stem +:+ "." +:+ ext) = stem +:+ ".md".
Proof.
  intros Hext. unfold suggestedFilename, JS.pop.
  rewrite (split_dot_stem_ext _ _ Hext).
  rewrite bool_decide_eq_true_2.
  - simpl snd. by rewrite removelast_snoc, join_split_dot.
  - rewrite length_app. simpl. pose proof (split_dot_length stem). lia.
Qed.

Lemma suggestedFilename_no_ext name :
  JS.has_dot name = false → suggestedFilename name = name +:+ ".md".
Proof.
  intros Hname. unfold suggestedFilename.
  by rewrite (split_dot_no_dot _ Hname).
Qed.

(** The hint computed by the API route for a name without a full stop
    is the whole name behind a full stop. *)
Lemma fileExtension_no_ext name :
  JS.has_dot name = false → name ≠ "" →
  fileExtension (Some name) = Some ("." +:+ name).
Proof.
  intros Hdot Hne. unfold fileExtension, JS.truthy.
  rewrite bool_decide_eq_false_2 by done. simpl.
  by rewrite (split_dot_no_dot _ Hdot).
Qed.

(** The hint is absent only when the name itself is absent or empty. *)
Lemma fileExtension_None v :
  fileExtension v = None ↔ JS.truthy v = false.
Proof. unfold fileExtension. by destruct (JS.truthy v). Qed.

Lemma tempPath_segments name :
  JS.split_dot (tempPath name) =
    match JS.split_dot name with
    | h :: t => ("/tmp/" +:+ h) :: t
    | [] => ["/tmp/"]
    end.
Proof. unfold tempPath. by apply split_dot_prefix. Qed.

Lemma last_cons_cons {A} (x y : A) l : last (x :: y :: l) = last (y :: l).
Proof. done. Qed.

Lemma tempPath_extension name :
  JS.has_dot name = true →
  fst (JS.pop (JS.split_dot (tempPath name))) =
  fst (JS.pop (JS.split_dot name)).
Proof.
  rewrite split_dot_has_dot, tempPath_segments.
  intros Hlen%bool_decide_eq_true. unfold JS.pop. simpl.
  destruct (JS.split_dot name) as [|h [|h' t]]; simpl in Hlen; [lia..|].
  by rewrite !last_cons_cons.
Qed.

End Filenames.

(** C6. The suggested output filename drops only the last
    dot-separated segment of the original name and appends ".md"; a
    name without a full stop gets ".md" appended to all of it. So
    "report.v2.pdf" becomes "report.v2.md" and "README" becomes
    "README.md". *)
Theorem C6_suggested_filename :
  (∀ stem ext, JS.has_dot ext = false →
     suggestedFilename (stem +:+ "." +:+ ext) = stem +:+ ".md") ∧
  (∀ name, JS.has_dot name = false →
     suggestedFilename name = name +:+ ".md") ∧
  suggestedFilename "report.v2.pdf" = "report.v2.md" ∧
  suggestedFilename "README" = "README.md".
Proof.
  split; [exact suggestedFilename_ext|].
  split; [exact suggestedFilename_no_ext|].
  split; reflexivity.
Qed.

Lemma C6_suggested_filename_witness :
  suggestedFilename ("archive.tar" +:+ "." +:+ "gz") = "archive.tar" +:+ ".md" ∧
  suggestedFilename "Makefile" = "Makefile" +:+ ".md".
Proof.
  destruct C6_suggested_filename as (Hext & Hnone & _).
  split; [apply Hext | apply Hnone]; reflexivity.
Defined.

(** C7. On the name "README", which has no extension, the API route
    does hand the converter a format hint: the whole name behind a
    full stop. *)
Theorem C7_hint_fabricated_for_README :
  JS.has_dot "README" = false ∧
  fileExtension (Some "README") = Some ".README".
Proof. split; reflexivity. Qed.

(** C4, as stated, fails: two different files of the same name are
    staged at one and the same path. *)
Lemma C4_staging_path_not_unique :
  ∃ f1 f2 : Browser.File,
    f1 ≠ f2 ∧
    tempPath (Browser.name f1) = tempPath (Browser.name f2).
Proof.
  exists (Browser.mkFile "a.pdf" [Byte.x00]), (Browser.mkFile "a.pdf" [Byte.x01]).
  split; [discriminate | reflexivity].
Qed.

(** C4, amended. The staging path is derived from the original
    filename alone, with no per-call component: the last dot-separated
    segment of the path is that of the filename, so the extension is
    preserved, and two files with equal names are staged at the same
    path, whatever their contents. *)
Theorem C4_staging_path :
  (∀ name, JS.has_dot name = true →
     fst (JS.pop (JS.split_dot (tempPath name))) =
     fst (JS.pop (JS.split_dot name))) ∧
  (∀ f1 f2 : Browser.File,
     Browser.name f1 = Browser.name f2 →
     tempPath (Browser.name f1) = tempPath (Browser.name f2)).
Proof.
  split; [exact tempPath_extension|].
  intros f1 f2 Hname. by rewrite Hname.
Qed.

Lemma C4_staging_path_witness :
  fst (JS.pop (JS.split_dot (tempPath "slides.v2.pptx"))) =
    fst (JS.pop (JS.split_dot "slides.v2.pptx")) ∧
  tempPath (Browser.name (Browser.mkFile "a.pdf" [Byte.x00])) =
    tempPath (Browser.name (Browser.mkFile "a.pdf" [Byte.x01])).
Proof.
  destruct C4_staging_path as (Hext & Hsame).
  split; [apply Hext | apply Hsame]; reflexivity.
Defined.

(** ** Size formatting *)

Section SizeFacts.

Import Size.

Lemma k_pow i : 0 ≤ i → k ^ i = 2 ^ (10 * i).
Proof. intros Hi. unfold k. by rewrite Z.pow_mul_r by lia. Qed.

(** The index is the floor of the base-[k] logarithm. *)
Lemma floor_log_k_spec bytes :
  1 ≤ bytes →
  ∃ i, floor_log_k bytes = IInt i ∧ 0 ≤ i ∧ k ^ i ≤ bytes < k ^ (i + 1).
Proof.
  intros Hb. unfold floor_log_k.
  destruct (Z.ltb_spec bytes 0); [lia|].
  destruct (Z.eqb_spec bytes 0); [lia|].
  change (Z.log2 k) with 10.
  exists (Z.log2 bytes / 10).
  destruct (Z.log2_spec bytes) as [Hlo Hhi]; [lia|].
  pose proof (Z.log2_nonneg bytes) as Hl.
  assert (0 ≤ Z.log2 bytes / 10) as Hi by (apply Z.div_pos; lia).
  pose proof (Z.mul_div_le (Z.log2 bytes) 10 ltac:(lia)) as Hdiv.
  pose proof (Z.mul_succ_div_gt (Z.log2 bytes) 10 ltac:(lia)) as Hdiv'.
  split; [done|]. split; [done|].
  rewrite !k_pow by lia. split.
  - etrans; [|exact Hlo]. apply Z.pow_le_mono_r; lia.
  - eapply Z.lt_le_trans; [exact Hhi|]. apply Z.pow_le_mono_r; lia.
Qed.

Lemma ln_pow_Z (x i : Z) :
  0 < x → 0 ≤ i → ln (IZR (x ^ i)) = (IZR i * ln (IZR x))%R.
Proof.
  intros Hx Hi.
  rewrite <- (Z2Nat.id i Hi) at 1. rewrite <- pow_IZR.
  assert (0 < IZR x)%R as Hx' by (by apply IZR_lt).
  rewrite <- (Z2Nat.id i Hi) at 2. rewrite <- INR_IZR_INZ.
  generalize (Z.to_nat i) as n. intros n.
  induction n as [|n IH].
  - simpl. rewrite ln_1. lra.
  - rewrite S_INR. simpl pow. rewrite ln_mult; [|done|by apply pow_lt].
    rewrite IH. lra.
Qed.

(** The integer computation agrees with the real-number reading of
    [Math.floor(Math.log(bytes) / Math.log(k))]. *)
Lemma floor_log_k_real bytes i :
  1 ≤ bytes → floor_log_k bytes = IInt i →
  (IZR i <= ln (IZR bytes) / ln (IZR k) < IZR i + 1)%R.
Proof.
  intros Hb Hi.
  destruct (floor_log_k_spec bytes Hb) as (j & Hj & Hj0 & Hlo & Hhi).
  rewrite Hi in Hj. injection Hj as <-.
  assert (0 < k ^ i) as Hpos by (apply Z.pow_pos_nonneg; unfold k; lia).
  assert (0 < ln (IZR k))%R as Hk.
  { rewrite <- ln_1. apply ln_increasing; [lra|]. apply IZR_lt. unfold k. lia. }
  assert (ln (IZR (k ^ i)) <= ln (IZR bytes))%R as Hlo'.
  { apply IZR_le in Hlo. apply IZR_lt in Hpos.
    destruct Hlo as [Hlt| ->]; [|lra]. left. by apply ln_increasing. }
  assert (ln (IZR bytes) < ln (IZR (k ^ (i + 1))))%R as Hhi'.
  { apply ln_increasing; [apply IZR_lt; lia|by apply IZR_lt]. }
  rewrite ln_pow_Z in Hlo', Hhi' by (unfold k; lia).
  rewrite plus_IZR in Hhi'.
  assert (0 < / ln (IZR k))%R as Hinv by (by apply Rinv_0_lt_compat).
  split.
  - replace (IZR i) with (IZR i * ln (IZR k) / ln (IZR k))%R by (field; lra).
    apply Rmult_le_compat_r; [lra|exact Hlo'].
  - replace (IZR i + 1)%R with ((IZR i + 1) * ln (IZR k) / ln (IZR k))%R
      by (field; lra).
    apply Rmult_lt_compat_r; [exact Hinv|exact Hhi'].
Qed.

Lemma floor_log_k_small bytes i :
  floor_log_k bytes = IInt i → 1 ≤ bytes < k ^ 4 → 0 ≤ i < 4.
Proof.
  intros Hi Hb. destruct (floor_log_k_spec bytes) as (j & Hj & Hj0 & Hjl & _); [lia|].
  rewrite Hi in Hj. injection Hj as <-. split; [done|].
  destruct (Z.lt_ge_cases i 4) as [|Hge]; [done|].
  assert (k ^ 4 ≤ k ^ i) by (apply Z.pow_le_mono_r; unfold k; lia). lia.
Qed.

Lemma floor_log_k_large bytes i :
  floor_log_k bytes = IInt i → k ^ 4 ≤ bytes → 4 ≤ i.
Proof.
  intros Hi Hb.
  assert (0 < k ^ 4) by (unfold k; lia).
  destruct (floor_log_k_spec bytes) as (j & Hj & Hj0 & _ & Hju); [lia|].
  rewrite Hi in Hj. injection Hj as <-.
  destruct (Z.lt_ge_cases i 4) as [Hlt|]; [|done].
  assert (k ^ (i + 1) ≤ k ^ 4) by (apply Z.pow_le_mono_r; unfold k; lia). lia.
Qed.

Lemma sizes_at_small i :
  0 ≤ i < 4 → ∃ u, sizes_at (IInt i) = Some u ∧ u ∈ sizes.
Proof.
  intros Hi. unfold sizes_at. destruct (Z.leb_spec 0 i); [|lia].
  assert (i = 0 ∨ i = 1 ∨ i = 2 ∨ i = 3) as Hcases by lia.
  unfold sizes.
  destruct Hcases as [Hc|[Hc|[Hc|Hc]]]; rewrite Hc;
    eexists; (split; [reflexivity|]);
    rewrite !elem_of_cons; tauto.
Qed.

Lemma sizes_at_large i : 4 ≤ i → sizes_at (IInt i) = None.
Proof.
  intros Hi. unfold sizes_at. destruct (Z.leb_spec 0 i); [|done].
  apply lookup_ge_None. simpl. lia.
Qed.

(** The rounded quotient, in hundredths, lies between 1 and 1024. *)
Lemma toFixed2_bounds bytes i :
  0 ≤ i → k ^ i ≤ bytes < k ^ (i + 1) →
  ∃ n, toFixed2 (div_pow bytes (IInt i)) = Some n ∧ 100 ≤ n ≤ 102400.
Proof.
  intros Hi [Hlo Hhi]. unfold div_pow, toFixed2.
  destruct (Z.leb_spec 0 i); [|lia]. eexists; split; [reflexivity|].
  rewrite Z.pow_add_r, Z.pow_1_r in Hhi by lia.
  assert (0 < k ^ i) as Hd by (apply Z.pow_pos_nonneg; unfold k; lia).
  generalize dependent (k ^ i). intros d Hlo Hhi Hd. unfold k in Hhi.
  split.
  - apply Z.div_le_lower_bound; lia.
  - apply Z.lt_succ_r, Z.div_lt_upper_bound; lia.
Qed.

Lemma last_char_app (a b : string) :
  b ≠ "" → last_char (a +:+ b) = last_char b.
Proof.
  intros Hb. induction a as [|c a IH]; [done|].
  rewrite string_app_cons. simpl. rewrite IH.
  destruct (a +:+ b) eqn:Hab; [|done].
  destruct a, b; done.
Qed.

Lemma well_formed_last_char s : well_formed s → last_char s = Some "B"%char.
Proof.
  intros (n & u & _ & Hu & ->).
  rewrite last_char_app by done.
  unfold sizes in Hu.
  repeat (apply elem_of_cons in Hu as [->|Hu]; [reflexivity|]).
  by apply elem_of_nil in Hu.
Qed.

Lemma undefined_not_well_formed p : ¬ well_formed (p +:+ " " +:+ "undefined").
Proof.
  intros Hwf%well_formed_last_char.
  rewrite last_char_app in Hwf by done. discriminate.
Qed.

Lemma formatSize_nonzero bytes :
  bytes ≠ 0 →
  formatSize bytes =
    number_to_string (toFixed2 (div_pow bytes (floor_log_k bytes))) +:+ " " +:+
    JS.to_string (sizes_at (floor_log_k bytes)).
Proof.
  intros Hb. unfold formatSize. by destruct (Z.eqb_spec bytes 0).
Qed.

Lemma formatSize_in_range bytes :
  1 ≤ bytes < k ^ 4 →
  ∃ i u n, floor_log_k bytes = IInt i ∧ 0 ≤ i < 4 ∧
           sizes !! Z.to_nat i = Some u ∧ 100 ≤ n ≤ 102400 ∧
           formatSize bytes = number_to_string (Some n) +:+ " " +:+ u.
Proof.
  intros Hb.
  destruct (floor_log_k_spec bytes) as (i & Hi & Hi0 & Hbi); [lia|].
  pose proof (floor_log_k_small _ _ Hi Hb) as Hi4.
  destruct (sizes_at_small i Hi4) as (u & Hu & _).
  destruct (toFixed2_bounds bytes i Hi0 Hbi) as (n & Hn & Hn').
  exists i, u, n. rewrite formatSize_nonzero, Hi, Hn, Hu by lia.
  repeat split; try lia.
  unfold sizes_at in Hu. by destruct (Z.leb_spec 0 i); [|lia].
Qed.

Lemma formatSize_too_large bytes :
  k ^ 4 ≤ bytes →
  ∃ i, floor_log_k bytes = IInt i ∧ 4 ≤ i ∧ sizes_at (IInt i) = None ∧
       ¬ well_formed (formatSize bytes).
Proof.
  intros Hb. assert (0 < k ^ 4) by (unfold k; lia).
  destruct (floor_log_k_spec bytes) as (i & Hi & Hi0 & Hbi); [lia|].
  pose proof (floor_log_k_large _ _ Hi Hb) as Hi4.
  exists i. rewrite formatSize_nonzero, Hi, sizes_at_large by lia.
  repeat split; try done. apply undefined_not_well_formed.
Qed.

Lemma formatSize_negative bytes :
  bytes < 0 →
  floor_log_k bytes = INaN ∧ formatSize bytes = "NaN undefined" ∧
  ¬ well_formed (formatSize bytes).
Proof.
  intros Hb.
  assert (floor_log_k bytes = INaN) as Hi.
  { unfold floor_log_k. by destruct (Z.ltb_spec bytes 0); [|lia]. }
  assert (formatSize bytes = "NaN undefined") as Hf.
  { by rewrite formatSize_nonzero, Hi by lia. }
  repeat split; [done..|]. rewrite Hf.
  apply (undefined_not_well_formed "NaN").
Qed.

End SizeFacts.

(** C9. [formatSize] maps 0 bytes to "0 B" and 1536 bytes to
    "1.5 KB". *)
Theorem C9_formatSize_examples :
  Size.formatSize 0 = "0 B" ∧ Size.formatSize 1536 = "1.5 KB".
Proof. split; vm_compute; reflexivity. Qed.

(** C10. For a byte count from 1 up to, but not including, 1024^4 the
    unit index lies inside the four-element unit array and the result
    is a number between 1 and 1024 followed by a space and that unit.
    For 1024^4 bytes and more the index is 4 or more, the unit lookup
    finds nothing, and the result is not of the form "<number> <unit>".
    For a negative count the index is not a number and the result,
    "NaN undefined", is not of that form either. *)
Theorem C10_formatSize_domain (bytes : Z) :
  (1 ≤ bytes < 1024 ^ 4 →
     ∃ i u n, Size.floor_log_k bytes = Size.IInt i ∧ 0 ≤ i < 4 ∧
              Size.sizes !! Z.to_nat i = Some u ∧ 100 ≤ n ≤ 102400 ∧
              Size.formatSize bytes =
                Size.number_to_string (Some n) +:+ " " +:+ u ∧
              Size.well_formed (Size.formatSize bytes)) ∧
  (1024 ^ 4 ≤ bytes →
     ∃ i, Size.floor_log_k bytes = Size.IInt i ∧ 4 ≤ i ∧
          Size.sizes_at (Size.IInt i) = None ∧
          ¬ Size.well_formed (Size.formatSize bytes)) ∧
  (bytes < 0 →
     Size.floor_log_k bytes = Size.INaN ∧
     Size.formatSize bytes = "NaN undefined" ∧
     ¬ Size.well_formed (Size.formatSize bytes)).
Proof.
  split; [|split].
  - intros Hb.
    destruct (formatSize_in_range bytes Hb) as (i & u & n & Hi & Hi4 & Hu & Hn & Hf).
    exists i, u, n. repeat split; try done; try lia.
    exists n, u. repeat split; [lia| |done].
    by eapply list_elem_of_lookup_2.
  - apply formatSize_too_large.
  - apply formatSize_negative.
Qed.

Lemma C10_formatSize_domain_witness :
  Size.well_formed (Size.formatSize 1536) ∧
  ¬ Size.well_formed (Size.formatSize (1024 ^ 4)) ∧
  Size.formatSize (-1) = "NaN undefined".
Proof.
  split; [|split].
  - destruct (C10_formatSize_domain 1536) as (Hin & _ & _).
    destruct Hin as (i & u & n & _ & _ & _ & _ & _ & Hwf); [lia|exact Hwf].
  - destruct (C10_formatSize_domain (1024 ^ 4)) as (_ & Hbig & _).
    destruct Hbig as (i & _ & _ & _ & Hnwf); [lia|exact Hnwf].
  - destruct (C10_formatSize_domain (-1)) as (_ & _ & Hneg).
    destruct Hneg as (_ & Hf & _); [lia|exact Hf].
Defined.

(** ** The environment provisioner *)

Section ProvisionerFacts.

Import Browser.

Lemma loadPyodideEnvironment_cached o w h :
  pyodide w = Some h → loadPyodideEnvironment o w = (w, inl h).
Proof.
  intros Hc. unfold loadPyodideEnvironment.
  cbv [mbind M_bind bind get]. by rewrite Hc.
Qed.

(** Unfolds the provisioner on a world without a cached interpreter. *)
Ltac run_provisioner Hnone Hrun :=
  unfold loadPyodideEnvironment in Hrun;
  cbv [mbind M_bind bind get modify finally try_catch loadPyodide step
       ret throw mret M_ret] in Hrun;
  rewrite Hnone in Hrun.

Ltac next_step o s Hrun :=
  let Hs := fresh "H" s in
  destruct (o s) eqn:Hs; simpl in Hrun.

(** A first call that succeeds ran every step once, on a new
    interpreter, and cached it. *)
Lemma loadPyodideEnvironment_fresh o w w1 h :
  pyodide w = None → loadPyodideEnvironment o w = (w1, inl h) →
  pyodide w1 = Some h ∧ heap w !! h = None ∧
  work w1 = work w ++ all_steps ∧
  (∃ r, heap w1 !! h = Some r ∧ convert_file_defined r = true) ∧
  file w1 = file w ∧ isProcessing w1 = isProcessing w ∧
  resultText w1 = resultText w ∧ resultFilename w1 = resultFilename w ∧
  alerts w1 = alerts w.
Proof.
  intros Hnone Hrun. run_provisioner Hnone Hrun.
  next_step o LoadRuntime Hrun; [discriminate|].
  next_step o LoadMicropip Hrun; [discriminate|].
  next_step o MockModules Hrun; [discriminate|].
  next_step o LoadPackages Hrun; [discriminate|].
  assert (heap w !! fresh (dom (heap w)) = None) as Hfresh
    by apply not_elem_of_dom, is_fresh.
  next_step o InstallOptional Hrun;
    (next_step o InstallMarkitdown Hrun; [discriminate|]);
    (next_step o RegisterWrapper Hrun; [discriminate|]);
    injection Hrun as <- <-; simpl;
    rewrite <- !(assoc_L (++)); simpl;
    rewrite ?lookup_alter_eq, lookup_insert_eq; simpl;
    repeat split; try done; eexists; split; reflexivity.
Qed.

(** A first call that fails raises an initialization error that
    carries the cause. When it was the runtime load that failed
    nothing is cached; when a later step failed the interpreter
    stays in the module variable, without the wrapper function. *)
Lemma loadPyodideEnvironment_failure o w w1 e :
  pyodide w = None → loadPyodideEnvironment o w = (w1, inr e) →
  (∃ cause, e = new_Error
      ("Failed to initialize Python environment: " +:+ err_message cause)) ∧
  (is_Some (o LoadRuntime) → pyodide w1 = None ∧ heap w1 = heap w) ∧
  (o LoadRuntime = None →
     ∃ h r, pyodide w1 = Some h ∧ heap w1 !! h = Some r ∧
            convert_file_defined r = false).
Proof.
  intros Hnone Hrun. run_provisioner Hnone Hrun.
  next_step o LoadRuntime Hrun.
  { injection Hrun as <- <-. simpl. split; [eauto|]. split; [done|]. done. }
  assert (∀ P : Prop, is_Some (@None Error) → P) as Hno
    by (by intros P [? ?]).
  next_step o LoadMicropip Hrun;
    [|next_step o MockModules Hrun;
      [|next_step o LoadPackages Hrun;
        [|next_step o InstallOptional Hrun;
          (next_step o InstallMarkitdown Hrun;
            [|next_step o RegisterWrapper Hrun; [|discriminate]])]]];
    injection Hrun as <- <-; simpl;
    (split; [eauto|]); (split; [apply Hno|]); intros _;
    do 2 eexists; (split; [reflexivity|]);
    rewrite ?lookup_alter_eq, lookup_insert_eq; simpl; eauto.
Qed.

Lemma loadPyodideEnvironment_returns o w w1 h :
  loadPyodideEnvironment o w = (w1, inl h) → pyodide w1 = Some h.
Proof.
  intros Hrun. destruct (pyodide w) as [h'|] eqn:Hc.
  - rewrite (loadPyodideEnvironment_cached _ _ _ Hc) in Hrun.
    by injection Hrun as <- <-.
  - by apply loadPyodideEnvironment_fresh in Hrun as (? & _).
Qed.

Lemma ensureReady_many_cached os w h :
  pyodide w = Some h →
  ensureReady_many os w = (w, replicate (length os) (inl h)).
Proof.
  intros Hc. induction os as [|o os IH]; simpl; [done|].
  by rewrite (loadPyodideEnvironment_cached _ _ _ Hc), IH.
Qed.

End ProvisionerFacts.

(** C2. A first call whose runtime load succeeds and whose package
    manager load then fails raises the initialization error, yet
    leaves the bare interpreter in the module variable; the next call
    returns that interpreter at once, runs no step, and the wrapper
    function is still not registered in it. *)
Theorem C2_partial_environment_stays_cached :
  let o := Browser.fail_at Browser.LoadMicropip "network" in
  let '(w1, r1) := Browser.loadPyodideEnvironment o Browser.init in
  let '(w2, r2) := Browser.loadPyodideEnvironment Browser.all_ok w1 in
  r1 = inr (new_Error "Failed to initialize Python environment: network") ∧
  Browser.pyodide w1 = Some 0%nat ∧
  r2 = inl 0%nat ∧
  Browser.work w2 = [Browser.LoadRuntime; Browser.LoadMicropip] ∧
  Browser.convert_file_defined <$> Browser.heap w2 !! 0%nat = Some false.
Proof. vm_compute. repeat split. Qed.

(** ** The conversion call, browser shape *)

Section BrowserConversionFacts.

Import Browser.

Variable convert_file : FS → string → PyResult.
Variable writeFile_fault : string → option Error.

Lemma FS_writeFile_accepted h path data w :
  writeFile_fault path = None →
  FS_writeFile writeFile_fault h path data w =
    (set_heap (alter (set_FS <[path := data]>) h) w, inl tt).
Proof. intros Hw. unfold FS_writeFile. by rewrite Hw. Qed.

Lemma call_convert_file_written h path data w r :
  heap w !! h = Some r → convert_file_defined r = true →
  call_convert_file convert_file h path
    (set_heap (alter (set_FS <[path := data]>) h) w) =
    (set_heap (alter (set_FS <[path := data]>) h) w,
     match convert_file (<[path := data]> (rt_FS r)) path with
     | PyReturn v => inl v
     | PyRaise e => inr e
     end).
Proof.
  intros Hr Hdef. unfold call_convert_file.
  cbv [mbind M_bind bind get]. simpl.
  rewrite lookup_alter_eq, Hr. simpl. rewrite Hdef.
  by destruct (convert_file _ _).
Qed.

Lemma FS_unlink_written h path data w r :
  heap w !! h = Some r →
  FS_unlink h path (set_heap (alter (set_FS <[path := data]>) h) w) =
    (unstaged h path data w, inl tt).
Proof.
  intros Hr. unfold FS_unlink.
  cbv [mbind M_bind bind get]. simpl.
  rewrite lookup_alter_eq, Hr. simpl. by rewrite lookup_insert_eq.
Qed.

(** When the environment is ready, the write is accepted and the
    converter returns, the call unlinks the staged file and then
    branches on the returned value. *)
Lemma startConversion_returns o w f w1 h r v :
  file w = Some f →
  loadPyodideEnvironment o (entering w) = (w1, inl h) →
  heap w1 !! h = Some r → convert_file_defined r = true →
  writeFile_fault (tempPath (name f)) = None →
  convert_file (<[tempPath (name f) := contents f]> (rt_FS r))
               (tempPath (name f)) = PyReturn v →
  startConversion convert_file writeFile_fault o w =
    (set_isProcessing false
       (let w2 := unstaged h (tempPath (name f)) (contents f) w1 in
        if JS.truthy v
        then set_resultFilename (suggestedFilename (name f))
               (set_resultText (JS.to_string v) w2)
        else alert "Conversion Failed: Conversion returned empty result" w2),
     inl tt).
Proof.
  intros Hf Hload Hr Hdef Hw Hconv.
  unfold startConversion.
  cbv [mbind M_bind bind get modify finally try_catch ret throw mret M_ret].
  rewrite Hf. fold (entering w). rewrite Hload.
  rewrite (FS_writeFile_accepted _ _ _ _ Hw).
  rewrite (call_convert_file_written _ _ _ _ _ Hr Hdef), Hconv.
  rewrite (FS_unlink_written _ _ _ _ _ Hr).
  by destruct (JS.truthy v).
Qed.

(** When the converter raises instead, the unlink is skipped: the
    staged file is still there when the call returns. *)
Lemma startConversion_raises o w f w1 h r e :
  file w = Some f →
  loadPyodideEnvironment o (entering w) = (w1, inl h) →
  heap w1 !! h = Some r → convert_file_defined r = true →
  writeFile_fault (tempPath (name f)) = None →
  convert_file (<[tempPath (name f) := contents f]> (rt_FS r))
               (tempPath (name f)) = PyRaise e →
  startConversion convert_file writeFile_fault o w =
    (set_isProcessing false
       (alert ("Conversion Failed: " +:+ message_or_error e)
          (set_heap
             (alter (set_FS <[tempPath (name f) := contents f]>) h) w1)),
     inl tt).
Proof.
  intros Hf Hload Hr Hdef Hw Hconv.
  unfold startConversion.
  cbv [mbind M_bind bind get modify finally try_catch ret throw mret M_ret].
  rewrite Hf. fold (entering w). rewrite Hload.
  rewrite (FS_writeFile_accepted _ _ _ _ Hw).
  by rewrite (call_convert_file_written _ _ _ _ _ Hr Hdef), Hconv.
Qed.

Lemma staged_unstaged h path data w1 :
  pyodide w1 = Some h → path ∉ staged (unstaged h path data w1).
Proof.
  intros Hc. unfold staged, unstaged. simpl. rewrite Hc. simpl.
  rewrite !lookup_alter_eq.
  destruct (heap w1 !! h) as [r|]; simpl; [|apply not_elem_of_empty].
  apply not_elem_of_dom, lookup_delete_eq.
Qed.

(** The provisioner leaves the page's own state alone. *)
Lemma loadPyodideEnvironment_ui o w w1 h :
  loadPyodideEnvironment o w = (w1, inl h) →
  file w1 = file w ∧ isProcessing w1 = isProcessing w ∧
  resultText w1 = resultText w ∧ resultFilename w1 = resultFilename w ∧
  alerts w1 = alerts w.
Proof.
  intros Hrun. destruct (pyodide w) as [h'|] eqn:Hc.
  - rewrite (loadPyodideEnvironment_cached _ _ _ Hc) in Hrun.
    by injection Hrun as <- <-.
  - by apply loadPyodideEnvironment_fresh in Hrun as (_ & _ & _ & _ & ?).
Qed.

End BrowserConversionFacts.

(** ** The request handler, server shape *)

Section HandlerFacts.

Import Server.

Context {Request : Type}.
Variable readFiles : Request → Options → FS → FS * ReadOutcome.
Variable new_MarkItDown : option Error.
Variable convert : FS → string → JS.value → ConvertOutcome.

Local Abbreviation handler := (handler Request readFiles new_MarkItDown convert).

(** The handler leaves the temporary directory as [readFiles] left
    it. *)
Lemma handler_directory event fs :
  (handler event fs).1.1 = (readFiles event readFiles_options fs).1.
Proof.
  unfold Server.handler.
  destruct (readFiles event readFiles_options fs) as [fs1 [e|files]]; [done|].
  destruct (first_file files) as [up|]; [|done].
  destruct (JS.truthy (filepath up)); [|done]. simpl.
  destruct (try_block _ _ _ _ _) as [ev r]. simpl.
  by destruct (bool_decide _).
Qed.

Lemma handler_rejected event fs fs1 e :
  readFiles event readFiles_options fs = (fs1, ReadRejected e) →
  handler event fs = (fs1, [], Propagated e).
Proof. intros Hread. unfold Server.handler. by rewrite Hread. Qed.

Lemma handler_no_file event fs fs1 files :
  readFiles event readFiles_options fs = (fs1, ReadResolved files) →
  first_file files = None →
  handler event fs = (fs1, [], Created 400 "No file uploaded").
Proof. intros Hread Hnone. unfold Server.handler. by rewrite Hread, Hnone. Qed.

Lemma handler_no_path event fs fs1 files up :
  readFiles event readFiles_options fs = (fs1, ReadResolved files) →
  first_file files = Some up → JS.truthy (filepath up) = false →
  handler event fs = (fs1, [], Created 500 "File upload failed, no path").
Proof.
  intros Hread Hup Hpath. unfold Server.handler.
  by rewrite Hread, Hup, Hpath.
Qed.

(** With a file part and a path the outcome is that of the [try]
    block, a failure being wrapped into a 500 error. *)
Lemma handler_converts event fs fs1 files up :
  readFiles event readFiles_options fs = (fs1, ReadResolved files) →
  first_file files = Some up → JS.truthy (filepath up) = true →
  handler event fs =
    let path := JS.to_string (filepath up) in
    let '(ev, r) := try_block new_MarkItDown convert fs1 path
                              (originalFilename up) in
    (fs1, ev ++ [ExistsSync path],
     match r with
     | inl body => Returned body
     | inr m => Created 500 ("Conversion failed: " +:+ JS.to_string m)
     end).
Proof.
  intros Hread Hup Hpath. unfold Server.handler.
  rewrite Hread, Hup, Hpath. simpl.
  destruct (try_block _ _ _ _ _) as [ev r]. simpl.
  by destruct (bool_decide _).
Qed.

End HandlerFacts.

(** ** Staged files, empty results and the HTTP contract *)

(** C1, as stated, fails in the server shape: after a successful
    request the uploaded file that [readFiles] staged at
    "/tmp/upload_1" is still in the temporary directory. *)
Lemma C1_server_upload_survives :
  let request : Demo.Request := Some ("a.pdf", [Byte.x25; Byte.x50]) in
  let '(fs', _, out) :=
    Server.handler Demo.Request Demo.readFiles None Demo.convert request ∅ in
  (Server.staged_upload Demo.Request Demo.readFiles request ∅).2
    ≫= Server.filepath = Some "/tmp/upload_1" ∧
  out = Server.Returned
          (Server.mkPayload true (Some "# Title") (Some "a.pdf")) ∧
  fs' !! "/tmp/upload_1" = Some [Byte.x25; Byte.x50].
Proof. vm_compute. repeat split. Qed.

(** In the browser shape a converter that raises leaves the staged
    file behind as well. *)
Lemma browser_staged_file_survives_raise :
  let w := Demo.selected "scan.xyz" [Byte.x01] in
  let w' := (Browser.startConversion Demo.raising_convert_file
               Demo.writeFile_fault Browser.all_ok w).1 in
  Browser.alerts w' = ["Conversion Failed: UnsupportedFormatException"] ∧
  elements (Browser.staged w') = ["/tmp/scan.xyz"].
Proof. vm_compute. repeat split. Qed.

(** C1, amended. Browser shape: when the environment is ready, the
    staging write is accepted and the converter returns (with text or
    without), the staged file is no longer in the interpreter's file
    system when the call returns. Server shape: the handler removes
    nothing; on every path the temporary directory it leaves is the one
    [readFiles] left, staged upload included. *)
Theorem C1_staged_file_removal :
  (∀ convert_file writeFile_fault o w f w1 h r v,
     Browser.file w = Some f →
     Browser.loadPyodideEnvironment o (Browser.entering w) = (w1, inl h) →
     Browser.heap w1 !! h = Some r →
     Browser.convert_file_defined r = true →
     writeFile_fault (tempPath (Browser.name f)) = None →
     convert_file
       (<[tempPath (Browser.name f) := Browser.contents f]> (Browser.rt_FS r))
       (tempPath (Browser.name f)) = Browser.PyReturn v →
     tempPath (Browser.name f) ∉
       Browser.staged
         (Browser.startConversion convert_file writeFile_fault o w).1) ∧
  (∀ Request readFiles new_MarkItDown convert event fs,
     (Server.handler Request readFiles new_MarkItDown convert event fs).1.1 =
     (readFiles event Server.readFiles_options fs).1).
Proof.
  split.
  - intros convert_file writeFile_fault o w f w1 h r v Hf Hload Hr Hdef Hw Hconv.
    rewrite (startConversion_returns _ _ _ _ _ _ _ _ _ Hf Hload Hr Hdef Hw Hconv).
    pose proof (loadPyodideEnvironment_returns _ _ _ _ Hload) as Hc.
    pose proof (staged_unstaged h (tempPath (Browser.name f))
                  (Browser.contents f) w1 Hc) as Hgone.
    simpl. by destruct (JS.truthy v).
  - intros. apply handler_directory.
Qed.

Lemma C1_staged_file_removal_witness :
  "/tmp/notes.txt" ∉
    Browser.staged
      (Browser.startConversion Demo.convert_file Demo.writeFile_fault
         Browser.all_ok (Demo.selected "notes.txt" [Byte.x68; Byte.x69])).1.
Proof.
  destruct C1_staged_file_removal as [Hbrowser _].
  eapply (Hbrowser Demo.convert_file Demo.writeFile_fault Browser.all_ok
            (Demo.selected "notes.txt" [Byte.x68; Byte.x69])
            (Browser.mkFile "notes.txt" [Byte.x68; Byte.x69])).
  - reflexivity.
  - vm_compute. reflexivity.
  - vm_compute. reflexivity.
  - reflexivity.
  - reflexivity.
  - vm_compute. reflexivity.
Defined.

(** C3, as stated, fails in the server shape: when the converter
    resolves to a result whose text is empty, the handler returns the
    success body with that empty text. *)
Lemma C3_server_empty_text_is_success :
  let request : Demo.Request := Some ("empty.txt", []) in
  (Server.handler Demo.Request Demo.readFiles None Demo.convert request ∅).2 =
  Server.Returned (Server.mkPayload true (Some "") (Some "empty.txt")).
Proof. vm_compute. reflexivity. Qed.

(** C3, amended. Browser shape: when the converter returns a falsy
    value (nothing, or the empty string), the call shows the alert
    "Conversion Failed: Conversion returned empty result" and the
    result text stays empty. Server shape: when the converter resolves
    to no result object the handler throws a 500 error whose message
    says so; when it resolves to a result object the handler returns
    the success body with that object's text, whatever the text is. *)
Theorem C3_empty_result :
  (∀ convert_file writeFile_fault o w f w1 h r v,
     Browser.file w = Some f →
     Browser.loadPyodideEnvironment o (Browser.entering w) = (w1, inl h) →
     Browser.heap w1 !! h = Some r →
     Browser.convert_file_defined r = true →
     writeFile_fault (tempPath (Browser.name f)) = None →
     convert_file
       (<[tempPath (Browser.name f) := Browser.contents f]> (Browser.rt_FS r))
       (tempPath (Browser.name f)) = Browser.PyReturn v →
     JS.truthy v = false →
     let w' := (Browser.startConversion convert_file writeFile_fault o w).1 in
     Browser.alerts w' =
       Browser.alerts w ++
         ["Conversion Failed: Conversion returned empty result"] ∧
     Browser.resultText w' = "") ∧
  (∀ Request readFiles convert event fs fs1 files up,
     readFiles event Server.readFiles_options fs =
       (fs1, Server.ReadResolved files) →
     Server.first_file files = Some up →
     JS.truthy (Server.filepath up) = true →
     let path := JS.to_string (Server.filepath up) in
     let hint := fileExtension (Server.originalFilename up) in
     let out := (Server.handler Request readFiles None convert event fs).2 in
     (convert fs1 path hint = Server.ConvertResolved None →
        out = Server.Created 500
                "Conversion failed: Conversion returned empty result") ∧
     (∀ result,
        convert fs1 path hint = Server.ConvertResolved (Some result) →
        out = Server.Returned
                (Server.mkPayload true (Server.textContent result)
                                  (Server.originalFilename up)))).
Proof.
  split.
  - intros convert_file writeFile_fault o w f w1 h r v
           Hf Hload Hr Hdef Hw Hconv Hv.
    rewrite (startConversion_returns _ _ _ _ _ _ _ _ _ Hf Hload Hr Hdef Hw Hconv).
    destruct (loadPyodideEnvironment_ui _ _ _ _ Hload) as (_ & _ & Ht & _ & Ha).
    rewrite Hv. simpl. by rewrite Ha, Ht.
  - intros Request readFiles convert event fs fs1 files up Hread Hup Hpath.
    rewrite (handler_converts _ _ _ _ _ _ _ _ Hread Hup Hpath).
    unfold Server.try_block. simpl.
    split.
    + by intros ->.
    + by intros result ->.
Qed.

Lemma C3_empty_result_witness :
  Browser.alerts
    (Browser.startConversion Demo.convert_file Demo.writeFile_fault
       Browser.all_ok (Demo.selected "empty.txt" [])).1 =
    ["Conversion Failed: Conversion returned empty result"] ∧
  (Server.handler Demo.Request Demo.readFiles None
     (λ _ _ _, Server.ConvertResolved None) (Some ("a.pdf", [Byte.x01])) ∅).2 =
    Server.Created 500 "Conversion failed: Conversion returned empty result".
Proof.
  destruct C3_empty_result as [Hbrowser Hserver]. split.
  - edestruct (Hbrowser Demo.convert_file Demo.writeFile_fault Browser.all_ok
                 (Demo.selected "empty.txt" [])
                 (Browser.mkFile "empty.txt" [])) as [Halert _].
    + reflexivity.
    + vm_compute. reflexivity.
    + vm_compute. reflexivity.
    + reflexivity.
    + reflexivity.
    + vm_compute. reflexivity.
    + reflexivity.
    + exact Halert.
  - edestruct (Hserver Demo.Request Demo.readFiles
                 (λ _ _ _, Server.ConvertResolved None)
                 (Some ("a.pdf", [Byte.x01])) ∅) as [Hnone _].
    + vm_compute. reflexivity.
    + vm_compute. reflexivity.
    + reflexivity.
    + exact (Hnone eq_refl).
Defined.

Lemma first_file_elem (files : option Server.Files) up :
  Server.first_file files = Some up →
  ∃ fm arr, files = Some fm ∧ fm !! "file" = Some arr ∧ up ∈ arr.
Proof.
  unfold Server.first_file. destruct files as [fm|]; simpl; [|done].
  destruct (fm !! "file") as [arr|] eqn:Harr; simpl; [|done].
  intros Hup. exists fm, arr. repeat split; [done|].
  by eapply list_elem_of_lookup_2.
Qed.

Lemma demo_readFiles_honours_maxFileSize :
  Server.honours_maxFileSize Demo.Request Demo.readFiles.
Proof.
  intros [[original data]|] opts fs fs1 files field arr up Hread Hfield Hup;
    simpl in Hread.
  - destruct (Z.leb_spec (Z.of_nat (length data)) (Server.maxFileSize opts));
      [|discriminate].
    injection Hread as _ <-.
    apply lookup_singleton_Some in Hfield as [_ <-].
    apply list_elem_of_singleton in Hup as ->. done.
  - injection Hread as _ <-. by rewrite lookup_empty in Hfield.
Qed.

(** C8. The handler asks the multipart reader for a limit of
    100 * 1024 * 1024 bytes and acts on what the reader answers under
    that limit. When the reader rejects the upload, its error goes
    through before any interaction with converter or file system. When
    it resolves without a file part, the handler throws the 400 error
    "No file uploaded", again before any interaction. With a file part
    (which, for a reader that honours the limit, is no larger than
    100 MB): without a path it throws a 500 error; when the converter
    resolves to a result it returns, with status 200, the body
    {success: true, textContent, filename} built from that result and
    the original filename; and when the constructor throws, the
    converter rejects or it resolves to nothing, it throws a 500 error
    whose message is "Conversion failed: " followed by the cause. *)
Theorem C8_http_contract
    (Request : Type)
    (readFiles : Request → Server.Options → Server.FS → Server.FS * Server.ReadOutcome)
    (new_MarkItDown : option Error)
    (convert : Server.FS → string → JS.value → Server.ConvertOutcome)
    (event : Request) (fs : Server.FS) :
  let run := Server.handler Request readFiles new_MarkItDown convert event fs in
  let events := run.1.2 in
  let out := run.2 in
  Server.maxFileSize Server.readFiles_options = 104857600 ∧
  match readFiles event Server.readFiles_options fs with
  | (_, Server.ReadRejected e) => out = Server.Propagated e ∧ events = []
  | (fs1, Server.ReadResolved files) =>
      match Server.first_file files with
      | None =>
          out = Server.Created 400 "No file uploaded" ∧
          Server.status out = Some 400 ∧ events = []
      | Some up =>
          (Server.honours_maxFileSize Request readFiles →
           Server.size up ≤ 104857600) ∧
          if JS.truthy (Server.filepath up) then
            let path := JS.to_string (Server.filepath up) in
            let hint := fileExtension (Server.originalFilename up) in
            match new_MarkItDown with
            | Some e =>
                out = Server.Created 500
                        ("Conversion failed: " +:+ err_message e) ∧
                Server.status out = Some 500
            | None =>
                match convert fs1 path hint with
                | Server.ConvertResolved (Some result) =>
                    out = Server.Returned
                            (Server.mkPayload true (Server.textContent result)
                                              (Server.originalFilename up)) ∧
                    Server.status out = Some 200
                | Server.ConvertResolved None =>
                    out = Server.Created 500
                            "Conversion failed: Conversion returned empty result" ∧
                    Server.status out = Some 500
                | Server.ConvertRejected message =>
                    out = Server.Created 500
                            ("Conversion failed: " +:+ JS.to_string message) ∧
                    Server.status out = Some 500
                end
            end
          else
            out = Server.Created 500 "File upload failed, no path" ∧
            Server.status out = Some 500 ∧ events = []
      end
  end.
Proof.
  intros run events out. subst events out run. split; [reflexivity|].
  destruct (readFiles event Server.readFiles_options fs)
    as [fs1 [e|files]] eqn:Hread.
  { by rewrite (handler_rejected _ _ _ _ _ _ _ Hread). }
  destruct (Server.first_file files) as [up|] eqn:Hup.
  2: { by rewrite (handler_no_file _ _ _ _ _ _ _ Hread Hup). }
  split.
  { intros Hbound.
    destruct (first_file_elem _ _ Hup) as (fm & arr & -> & Harr & Hin).
    exact (Hbound _ _ _ _ _ _ _ _ Hread Harr Hin). }
  destruct (JS.truthy (Server.filepath up)) eqn:Hpath.
  - rewrite (handler_converts _ _ _ _ _ _ _ _ Hread Hup Hpath).
    unfold Server.try_block. simpl.
    destruct new_MarkItDown as [e|]; simpl; [done|].
    by destruct (convert fs1 _ _) as [m|[result|]].
  - by rewrite (handler_no_path _ _ _ _ _ _ _ _ Hread Hup Hpath).
Qed.

Lemma C8_http_contract_witness :
  (Server.handler Demo.Request Demo.readFiles None Demo.convert None ∅).2 =
    Server.Created 400 "No file uploaded" ∧
  (Server.handler Demo.Request Demo.readFiles None Demo.convert None ∅).1.2 = [] ∧
  (Server.handler Demo.Request Demo.readFiles None Demo.convert
     (Some ("a.pdf", [Byte.x25; Byte.x50])) ∅).2 =
    Server.Returned (Server.mkPayload true (Some "# Title") (Some "a.pdf")) ∧
  Z.of_nat (length [Byte.x25; Byte.x50]) ≤ 104857600.
Proof.
  pose proof (C8_http_contract Demo.Request Demo.readFiles None Demo.convert
                None ∅) as (_ & Hnone).
  destruct Hnone as (Hout & _ & Hev).
  split; [exact Hout|]. split; [exact Hev|].
  pose proof (C8_http_contract Demo.Request Demo.readFiles None Demo.convert
                (Some ("a.pdf", [Byte.x25; Byte.x50])) ∅) as (_ & Hfile).
  destruct Hfile as (Hsize & Hout' & _).
  split; [exact Hout'|]. exact (Hsize demo_readFiles_honours_maxFileSize).
Defined.

(** ** More on filenames *)

Section FilenameFacts.

Lemma split_dot_segments s : Forall (λ x, JS.has_dot x = false) (JS.split_dot s).
Proof.
  induction s as [|c r IH]; simpl.
  - by repeat constructor.
  - destruct (JS.is_dot c) eqn:Hc.
    + by constructor.
    + pose proof (split_dot_nonempty r) as Hne.
      destruct (JS.split_dot r) as [|h t]; [done|].
      inversion IH as [|? ? Hh Ht]; subst. constructor; [|done].
      simpl. by rewrite Hc, Hh.
Qed.

Lemma join_dot_snoc l x :
  l ≠ [] → JS.join_dot (l ++ [x]) = JS.join_dot l +:+ "." +:+ x.
Proof.
  induction l as [|p l IH]; [done|]. intros _.
  destruct l as [|q l]; [done|].
  change ((p :: q :: l) ++ [x]) with (p :: ((q :: l) ++ [x])).
  rewrite join_dot_cons by done. rewrite IH by done.
  rewrite (join_dot_cons p (q :: l)) by done.
  by rewrite !string_app_assoc.
Qed.

Lemma snoc_case {A} (l : list A) : l = [] ∨ ∃ l' x, l = l' ++ [x].
Proof. induction l as [|x l' _] using rev_ind; eauto. Qed.

(** Every name with a full stop is a stem, a full stop and a dot-free
    last segment. *)
Lemma has_dot_decompose name :
  JS.has_dot name = true →
  ∃ stem ext, name = stem +:+ "." +:+ ext ∧ JS.has_dot ext = false.
Proof.
  intros Hdot. rewrite split_dot_has_dot in Hdot.
  apply bool_decide_eq_true in Hdot.
  pose proof (split_dot_segments name) as Hseg.
  pose proof (join_split_dot name) as Hjoin.
  destruct (snoc_case (JS.split_dot name)) as [Hnil|(l & p & Hsplit)];
    rewrite ?Hnil, ?Hsplit in *; [simpl in Hdot; lia|].
  rewrite length_app in Hdot. simpl in Hdot.
  apply Forall_app in Hseg as [_ Hp]. apply Forall_inv in Hp.
  exists (JS.join_dot l), p. split; [|exact Hp].
  rewrite <- Hjoin. apply join_dot_snoc. destruct l; simpl in *; [lia|done].
Qed.

Lemma fileExtension_ext stem ext :
  JS.has_dot ext = false →
  fileExtension (Some (stem +:+ "." +:+ ext)) = Some ("." +:+ ext).
Proof.
  intros Hext. unfold fileExtension, JS.truthy.
  rewrite bool_decide_eq_false_2.
  - simpl. rewrite (split_dot_stem_ext _ _ Hext). by rewrite last_snoc.
  - by destruct stem.
Qed.

End FilenameFacts.

(** X1. Deriving the output name of an output name changes nothing:
    the ".md" that was appended is the only segment that is stripped
    again. *)
Theorem suggestedFilename_idempotent name :
  suggestedFilename (suggestedFilename name) = suggestedFilename name.
Proof.
  unfold suggestedFilename at 2 3.
  set (stem := JS.join_dot _).
  change (stem +:+ ".md") with (stem +:+ "." +:+ "md").
  by apply suggestedFilename_ext.
Qed.

(** X2. For every name with a full stop the page and the API route cut
    at the same place: the name is a stem followed by the route's
    hint, the hint is a full stop and a dot-free segment, and the page
    suggests the stem followed by ".md". *)
Theorem name_splits_into_stem_and_hint name :
  JS.has_dot name = true →
  ∃ stem ext,
    JS.has_dot ext = false ∧
    fileExtension (Some name) = Some ("." +:+ ext) ∧
    name = stem +:+ "." +:+ ext ∧
    suggestedFilename name = stem +:+ ".md".
Proof.
  intros (stem & ext & -> & Hext)%has_dot_decompose.
  exists stem, ext. split; [done|].
  split; [by apply fileExtension_ext|]. split; [done|].
  by apply suggestedFilename_ext.
Qed.

Lemma name_splits_into_stem_and_hint_witness :
  ∃ stem ext,
    JS.has_dot ext = false ∧
    fileExtension (Some "archive.tar.gz") = Some ("." +:+ ext) ∧
    "archive.tar.gz" = stem +:+ "." +:+ ext ∧
    suggestedFilename "archive.tar.gz" = stem +:+ ".md".
Proof. apply (name_splits_into_stem_and_hint "archive.tar.gz"). reflexivity. Defined.

(** X3. Whenever the API route computes a hint, the filename was
    present and non-empty, and the hint is a full stop followed by a
    dot-free suffix of that filename. *)
Theorem fileExtension_shape v hint :
  fileExtension v = Some hint →
  ∃ name pre ext,
    v = Some name ∧ name ≠ "" ∧ hint = "." +:+ ext ∧
    JS.has_dot ext = false ∧ name = pre +:+ ext.
Proof.
  unfold fileExtension. destruct v as [name|]; simpl; [|done].
  destruct (bool_decide (name = "")) eqn:Hname; simpl; [done|].
  apply bool_decide_eq_false in Hname.
  destruct (JS.has_dot name) eqn:Hdot.
  - apply has_dot_decompose in Hdot as (stem & ext & Heq & Hext).
    rewrite Heq at 1. rewrite (split_dot_stem_ext _ _ Hext), last_snoc. simpl.
    intros [= <-]. exists name, (stem +:+ "."), ext.
    repeat split; try done. by rewrite string_app_assoc.
  - rewrite (split_dot_no_dot _ Hdot). simpl. intros [= <-].
    exists name, "", name. by repeat split.
Qed.

Lemma fileExtension_shape_witness :
  ∃ name pre ext,
    Some "notes.txt" = Some name ∧ name ≠ "" ∧ ".txt" = "." +:+ ext ∧
    JS.has_dot ext = false ∧ name = pre +:+ ext.
Proof. apply (fileExtension_shape (Some "notes.txt") ".txt"). reflexivity. Defined.

(** ** More on size formatting *)

Section SizeRangeFacts.

Import Size.

Lemma k_pow_pos i : 0 ≤ i → 0 < k ^ i.
Proof. intros Hi. apply Z.pow_pos_nonneg; unfold k; lia. Qed.

Lemma k_pow_succ i : 0 ≤ i → k ^ (i + 1) = 1024 * k ^ i.
Proof. intros Hi. rewrite Z.pow_add_r, Z.pow_1_r by lia. unfold k. lia. Qed.

(** The index is the only [j] with [k ^ j <= bytes < k ^ (j + 1)]. *)
Lemma floor_log_k_unique bytes j :
  0 ≤ j → k ^ j ≤ bytes < k ^ (j + 1) → floor_log_k bytes = IInt j.
Proof.
  intros Hj [Hlo Hhi]. pose proof (k_pow_pos j Hj).
  destruct (floor_log_k_spec bytes) as (i & Hi & Hi0 & Hilo & Hihi); [lia|].
  rewrite Hi. f_equal.
  destruct (Z.lt_trichotomy i j) as [Hlt|[->|Hgt]]; [|done|].
  - assert (k ^ (i + 1) ≤ k ^ j) by (apply Z.pow_le_mono_r; unfold k; lia). lia.
  - assert (k ^ (j + 1) ≤ k ^ i) by (apply Z.pow_le_mono_r; unfold k; lia). lia.
Qed.

Lemma formatSize_at bytes i :
  0 ≤ i → k ^ i ≤ bytes < k ^ (i + 1) →
  formatSize bytes =
    number_to_string (Some ((200 * bytes + k ^ i) / (2 * k ^ i))) +:+ " " +:+
    JS.to_string (sizes_at (IInt i)).
Proof.
  intros Hi Hb. pose proof (k_pow_pos i Hi).
  rewrite formatSize_nonzero, (floor_log_k_unique _ _ Hi Hb) by lia.
  unfold div_pow, toFixed2. by destruct (Z.leb_spec 0 i); [|lia].
Qed.

End SizeRangeFacts.

(** X4. Within the four units the unit is chosen by the range alone:
    for a byte count from 1 up to, but not including, 1024^4 the unit
    index is [j] exactly when the count lies between 1024^j
    (included) and 1024^(j+1) (excluded). *)
Theorem formatSize_unit_by_range bytes j :
  1 ≤ bytes < 1024 ^ 4 → 0 ≤ j →
  (Size.floor_log_k bytes = Size.IInt j ↔
   Size.k ^ j ≤ bytes < Size.k ^ (j + 1)).
Proof.
  intros [Hb _] Hj. split.
  - intros Hi. destruct (floor_log_k_spec bytes Hb) as (i & Hi' & _ & Hrange).
    rewrite Hi in Hi'. by injection Hi' as ->.
  - by apply floor_log_k_unique.
Qed.

Lemma formatSize_unit_by_range_witness :
  Size.floor_log_k 5000000 = Size.IInt 2 ↔
  Size.k ^ 2 ≤ 5000000 < Size.k ^ (2 + 1).
Proof. apply (formatSize_unit_by_range 5000000 2); lia. Defined.

(** X5. Below 1024 bytes the count is shown exactly, as its decimal
    numeral followed by " B". *)
Theorem formatSize_bytes_exact bytes :
  1 ≤ bytes < 1024 → Size.formatSize bytes = pretty bytes +:+ " B".
Proof.
  intros Hb. rewrite (formatSize_at bytes 0) by (unfold Size.k; simpl; lia).
  change (Size.k ^ 0) with 1.
  change (2 * 1) with 2.
  replace ((200 * bytes + 1) / 2) with (bytes * 100)
    by (apply Z.div_unique with 1; lia).
  unfold Size.number_to_string.
  rewrite Z.mod_mul, Z.div_mul by lia.
  simpl. by rewrite string_app_nil_r.
Qed.

Lemma formatSize_bytes_exact_witness :
  Size.formatSize 512 = pretty 512 +:+ " B".
Proof. apply (formatSize_bytes_exact 512). lia. Defined.

(** X6. For every positive byte count the number shown is the
    quotient by the unit rounded to hundredths: it is off by at most
    half a hundredth. *)
Theorem formatSize_rounding bytes :
  1 ≤ bytes →
  ∃ i n,
    Size.floor_log_k bytes = Size.IInt i ∧ 0 ≤ i ∧
    Size.formatSize bytes =
      Size.number_to_string (Some n) +:+ " " +:+
      JS.to_string (Size.sizes_at (Size.IInt i)) ∧
    2 * Z.abs (n * Size.k ^ i - 100 * bytes) ≤ Size.k ^ i.
Proof.
  intros Hb.
  destruct (floor_log_k_spec bytes Hb) as (i & Hi & Hi0 & Hrange).
  exists i, ((200 * bytes + Size.k ^ i) / (2 * Size.k ^ i)).
  split; [done|]. split; [done|]. split; [by apply formatSize_at|].
  pose proof (k_pow_pos i Hi0) as Hd.
  generalize dependent (Size.k ^ i). intros d _ Hd.
  pose proof (Z.mul_div_le (200 * bytes + d) (2 * d) ltac:(lia)).
  pose proof (Z.mul_succ_div_gt (200 * bytes + d) (2 * d) ltac:(lia)).
  nia.
Qed.

Lemma formatSize_rounding_witness :
  ∃ i n,
    Size.floor_log_k 1234567 = Size.IInt i ∧ 0 ≤ i ∧
    Size.formatSize 1234567 =
      Size.number_to_string (Some n) +:+ " " +:+
      JS.to_string (Size.sizes_at (Size.IInt i)) ∧
    2 * Z.abs (n * Size.k ^ i - 100 * 1234567) ≤ Size.k ^ i.
Proof. apply (formatSize_rounding 1234567). lia. Defined.

(** X7. Just below a unit boundary the number rounds up to 1024 of
    the smaller unit instead of moving to the next unit: a count in
    range [i] that is within half a hundredth of a unit of 1024^(i+1)
    is shown as "1024" followed by the unit of range [i]. *)
Theorem formatSize_rounds_up_to_1024 bytes i u :
  0 ≤ i → Size.sizes !! Z.to_nat i = Some u →
  bytes < Size.k ^ (i + 1) →
  200 * (Size.k ^ (i + 1) - bytes) ≤ Size.k ^ i →
  Size.formatSize bytes = "1024 " +:+ u.
Proof.
  intros Hi Hu Hhi Hnear.
  pose proof (k_pow_pos i Hi) as Hd. pose proof (k_pow_succ i Hi) as Hsucc.
  rewrite (formatSize_at bytes i) by lia.
  unfold Size.sizes_at. destruct (Z.leb_spec 0 i); [|lia]. rewrite Hu.
  rewrite Hsucc in *. generalize dependent (Size.k ^ i). intros d Hhi Hnear Hd _.
  assert ((200 * bytes + d) / (2 * d) = 102400) as ->.
  { symmetry. apply Z.div_unique with (200 * bytes + d - 2 * d * 102400); lia. }
  reflexivity.
Qed.

Lemma formatSize_rounds_up_to_1024_witness :
  Size.formatSize 1048575 = "1024 " +:+ "KB".
Proof.
  apply (formatSize_rounds_up_to_1024 1048575 1 "KB");
    [lia | reflexivity | vm_compute; reflexivity | vm_compute; discriminate].
Defined.

(** X8. Every size within the route's upload limit of 100 MB, as the
    file card shows it, is a number between 1 and 1024 followed by B,
    KB or MB, never GB. *)
Theorem formatSize_within_upload_limit bytes :
  1 ≤ bytes ≤ Server.maxFileSize Server.readFiles_options →
  ∃ n u, 100 ≤ n ≤ 102400 ∧ u ∈ ["B"; "KB"; "MB"] ∧
         Size.formatSize bytes = Size.number_to_string (Some n) +:+ " " +:+ u.
Proof.
  simpl. intros Hb.
  destruct (formatSize_in_range bytes) as (i & u & n & Hi & Hi4 & Hu & Hn & Hf).
  { unfold Size.k. lia. }
  exists n, u. split; [done|]. split; [|done].
  assert (i < 3).
  { destruct (Z.lt_ge_cases i 3) as [|Hge]; [done|].
    destruct (floor_log_k_spec bytes) as (j & Hj & _ & Hlo & _); [lia|].
    rewrite Hi in Hj. injection Hj as <-.
    assert (Size.k ^ 3 ≤ Size.k ^ i)
      by (apply Z.pow_le_mono_r; unfold Size.k; lia).
    unfold Size.k in *. lia. }
  assert (i = 0 ∨ i = 1 ∨ i = 2) as Hcases by lia.
  destruct Hcases as [Hc|[Hc|Hc]]; rewrite Hc in Hu; simpl in Hu;
    injection Hu as <-; rewrite !elem_of_cons; tauto.
Qed.

Lemma formatSize_within_upload_limit_witness :
  ∃ n u, 100 ≤ n ≤ 102400 ∧ u ∈ ["B"; "KB"; "MB"] ∧
         Size.formatSize 104857600 =
           Size.number_to_string (Some n) +:+ " " +:+ u.
Proof.
  apply (formatSize_within_upload_limit 104857600). vm_compute.
  split; discriminate.
Defined.

(** ** More on the provisioner *)

Section ProvisionerOutcomes.

Import Browser.

(** Unfolds the provisioner on a world without a cached interpreter. *)
Ltac unfold_provisioner Hnone Hrun :=
  unfold loadPyodideEnvironment in Hrun;
  cbv [mbind M_bind bind get modify finally try_catch loadPyodide step
       ret throw mret M_ret] in Hrun;
  rewrite Hnone in Hrun.

Ltac case_step o s Hrun :=
  let Hs := fresh "H" s in
  destruct (o s) eqn:Hs; simpl in Hrun.

(** Splits a run of the provisioner into its eight paths. *)
Ltac provisioner_paths o Hrun :=
  case_step o LoadRuntime Hrun;
    [|case_step o LoadMicropip Hrun;
      [|case_step o MockModules Hrun;
        [|case_step o LoadPackages Hrun;
          [|case_step o InstallOptional Hrun;
            (case_step o InstallMarkitdown Hrun;
              [|case_step o RegisterWrapper Hrun])]]]];
  try discriminate Hrun; injection Hrun as <- <-.

Lemma mandatory_ok (o : Oracle) :
  o LoadRuntime = None → o LoadMicropip = None → o MockModules = None →
  o LoadPackages = None → o InstallMarkitdown = None →
  o RegisterWrapper = None →
  ∀ s, s ≠ InstallOptional → o s = None.
Proof. intros ? ? ? ? ? ? []; done. Qed.

Lemma loadPyodideEnvironment_succeeds_iff o w :
  pyodide w = None →
  (∃ h, (loadPyodideEnvironment o w).2 = inl h) ↔
  (∀ s, s ≠ InstallOptional → o s = None).
Proof.
  intros Hnone.
  destruct (loadPyodideEnvironment o w) as [w1 r] eqn:Hrun. simpl.
  unfold_provisioner Hnone Hrun. split.
  - intros [h Hr]. provisioner_paths o Hrun; try discriminate Hr;
      by apply mandatory_ok.
  - intros Hok.
    rewrite (Hok LoadRuntime), (Hok LoadMicropip), (Hok MockModules),
      (Hok LoadPackages), (Hok InstallMarkitdown), (Hok RegisterWrapper)
      in Hrun by done.
    simpl in Hrun. destruct (o InstallOptional); simpl in Hrun;
      injection Hrun as <- <-; eauto.
Qed.

Lemma fresh_not_allocated (w : World) h r :
  heap w !! h = Some r → h ≠ fresh (dom (heap w)).
Proof.
  intros Hh ->. apply (is_fresh (dom (heap w))). by eapply elem_of_dom_2.
Qed.

(** The provisioner changes nothing of the page's own state and no
    interpreter that already exists; it leaves the downloading flag
    off when it found it off. *)
Lemma loadPyodideEnvironment_frame o w :
  let w1 := (loadPyodideEnvironment o w).1 in
  file w1 = file w ∧ isProcessing w1 = isProcessing w ∧
  resultText w1 = resultText w ∧ resultFilename w1 = resultFilename w ∧
  alerts w1 = alerts w ∧
  (isDownloadingModel w = false → isDownloadingModel w1 = false) ∧
  (∀ h r, heap w !! h = Some r → heap w1 !! h = Some r).
Proof.
  destruct (pyodide w) as [h'|] eqn:Hc.
  { by rewrite (loadPyodideEnvironment_cached _ _ _ Hc). }
  destruct (loadPyodideEnvironment o w) as [w1 r] eqn:Hrun. simpl.
  unfold_provisioner Hc Hrun.
  provisioner_paths o Hrun; simpl; repeat split; try done;
    intros h r Hh; pose proof (fresh_not_allocated _ _ _ Hh);
    by rewrite ?lookup_alter_ne, lookup_insert_ne by done.
Qed.

Lemma loadPyodideEnvironment_ready o w w1 h :
  pyodide w = None → loadPyodideEnvironment o w = (w1, inl h) →
  heap w1 !! h =
    Some (mkRuntime true true true (bool_decide (o InstallOptional = None))
                    true true ∅).
Proof.
  intros Hnone Hrun. unfold_provisioner Hnone Hrun.
  provisioner_paths o Hrun; simpl;
    rewrite ?lookup_alter_eq, lookup_insert_eq; simpl;
    by rewrite ?bool_decide_eq_true_2, ?bool_decide_eq_false_2 by done.
Qed.

Lemma loadPyodideEnvironment_stops o w w1 e :
  pyodide w = None → loadPyodideEnvironment o w = (w1, inr e) →
  ∃ n s cause,
    all_steps !! n = Some s ∧ s ≠ InstallOptional ∧ o s = Some cause ∧
    e = new_Error
          ("Failed to initialize Python environment: " +:+ err_message cause) ∧
    work w1 = work w ++ take (S n) all_steps.
Proof.
  intros Hnone Hrun. unfold_provisioner Hnone Hrun.
  assert (∀ l1 l2 : list Step, l1 = l2 → work w ++ l1 = work w ++ l2) as Happ
    by (by intros ? ? ->).
  provisioner_paths o Hrun; simpl; rewrite <- ?(assoc_L (++)); simpl;
    first
      [ by (exists 0%nat; do 2 eexists; repeat split; eauto)
      | by (exists 1%nat; do 2 eexists; repeat split; eauto)
      | by (exists 2%nat; do 2 eexists; repeat split; eauto)
      | by (exists 3%nat; do 2 eexists; repeat split; eauto)
      | by (exists 5%nat; do 2 eexists; repeat split; eauto)
      | by (exists 6%nat; do 2 eexists; repeat split; eauto) ].
Qed.

Lemma loadPyodideEnvironment_runtime_load_fails o w e :
  pyodide w = None → o LoadRuntime = Some e →
  loadPyodideEnvironment o w =
    (set_isDownloadingModel false
       (log_work LoadRuntime (set_isDownloadingModel true w)),
     inr (new_Error
            ("Failed to initialize Python environment: " +:+ err_message e))).
Proof.
  intros Hnone He. unfold loadPyodideEnvironment.
  cbv [mbind M_bind bind get modify finally try_catch loadPyodide step
       ret throw mret M_ret].
  by rewrite Hnone, He.
Qed.

End ProvisionerOutcomes.

(** C5. Once a call of the provisioner has returned an interpreter,
    that interpreter is the cached one, and every later call, whatever
    the network would do, returns that same interpreter and leaves the
    world as it is: no step is run again. When the first call found an
    interpreter cached, it returned that one and changed nothing. When
    it found none, every mandatory step succeeded, the interpreter is
    a new object that now has the package manager, the mock modules,
    the base packages, the library and the wrapper function (and the
    optional dependencies when their install succeeded), and each
    construction step was run exactly once. *)
Theorem C5_ensureReady_idempotent
    (o : Browser.Oracle) (os : list Browser.Oracle)
    (w w1 : Browser.World) (h : nat) :
  Browser.loadPyodideEnvironment o w = (w1, inl h) →
  Browser.ensureReady_many (o :: os) w =
    (w1, replicate (S (length os)) (inl h)) ∧
  Browser.pyodide w1 = Some h ∧
  match Browser.pyodide w with
  | Some h0 => h = h0 ∧ w1 = w
  | None =>
      (∀ s, s ≠ Browser.InstallOptional → o s = None) ∧
      Browser.heap w !! h = None ∧
      (∃ r, Browser.heap w1 !! h = Some r ∧
            Browser.micropip r = true ∧ Browser.mock_modules r = true ∧
            Browser.base_packages r = true ∧
            Browser.optional_deps r =
              bool_decide (o Browser.InstallOptional = None) ∧
            Browser.markitdown r = true ∧
            Browser.convert_file_defined r = true) ∧
      Browser.work w1 = Browser.work w ++ Browser.all_steps ∧
      NoDup Browser.all_steps
  end.
Proof.
  intros Hrun.
  pose proof (loadPyodideEnvironment_returns _ _ _ _ Hrun) as Hc.
  split; [|split; [done|]].
  - simpl. rewrite Hrun. by rewrite (ensureReady_many_cached os w1 h).
  - destruct (Browser.pyodide w) as [h0|] eqn:Hw.
    + rewrite (loadPyodideEnvironment_cached _ _ _ Hw) in Hrun.
      by injection Hrun as <- <-.
    + destruct (loadPyodideEnvironment_fresh _ _ _ _ Hw Hrun)
        as (_ & Hnew & Hwork & _).
      split.
      { apply (loadPyodideEnvironment_succeeds_iff o w Hw).
        rewrite Hrun. by exists h. }
      split; [done|]. split.
      { eexists. split; [by eapply loadPyodideEnvironment_ready|]. done. }
      split; [done|]. apply (bool_decide_unpack _). by vm_compute.
Qed.

Lemma C5_ensureReady_idempotent_witness :
  ∃ w1,
    Browser.ensureReady_many
      [Browser.all_ok; Browser.fail_at Browser.LoadRuntime "offline"; Browser.all_ok]
      Browser.init = (w1, [inl 0%nat; inl 0%nat; inl 0%nat]) ∧
    Browser.work w1 = Browser.all_steps ∧
    Browser.convert_file_defined <$> Browser.heap w1 !! 0%nat = Some true.
Proof.
  eexists.
  destruct (C5_ensureReady_idempotent Browser.all_ok
              [Browser.fail_at Browser.LoadRuntime "offline"; Browser.all_ok]
              Browser.init _ 0%nat eq_refl)
    as (Hmany & _ & _ & _ & (r & Hr & _ & _ & _ & _ & _ & Hdef) & Hwork & _).
  split; [exact Hmany|]. split; [exact Hwork|].
  by rewrite Hr; simpl; rewrite Hdef.
Defined.

(** X9. A first-time construction succeeds exactly when every step
    other than the optional dependency install succeeds; the
    interpreter it returns then has the package manager, the mock
    modules, the base packages, the library and the wrapper function,
    and has the optional dependencies exactly when their install
    succeeded. *)
Theorem provisioner_succeeds_iff_mandatory_steps_do
    (o : Browser.Oracle) (w : Browser.World) :
  Browser.pyodide w = None →
  let '(w1, r) := Browser.loadPyodideEnvironment o w in
  ((∃ h, r = inl h) ↔ (∀ s, s ≠ Browser.InstallOptional → o s = None)) ∧
  (∀ h, r = inl h →
     ∃ rt, Browser.heap w1 !! h = Some rt ∧
           Browser.micropip rt = true ∧ Browser.mock_modules rt = true ∧
           Browser.base_packages rt = true ∧
           Browser.optional_deps rt =
             bool_decide (o Browser.InstallOptional = None) ∧
           Browser.markitdown rt = true ∧
           Browser.convert_file_defined rt = true).
Proof.
  intros Hnone.
  pose proof (loadPyodideEnvironment_succeeds_iff o w Hnone) as Hiff.
  destruct (Browser.loadPyodideEnvironment o w) as [w1 r] eqn:Hrun.
  split; [exact Hiff|]. intros h ->.
  eexists. split; [by eapply loadPyodideEnvironment_ready|]. done.
Qed.

Lemma provisioner_succeeds_iff_mandatory_steps_do_witness :
  let o := Browser.fail_at Browser.InstallOptional "no wheel" in
  let '(w1, r) := Browser.loadPyodideEnvironment o Browser.init in
  ((∃ h, r = inl h) ↔ (∀ s, s ≠ Browser.InstallOptional → o s = None)) ∧
  (∀ h, r = inl h →
     ∃ rt, Browser.heap w1 !! h = Some rt ∧
           Browser.micropip rt = true ∧ Browser.mock_modules rt = true ∧
           Browser.base_packages rt = true ∧
           Browser.optional_deps rt =
             bool_decide (o Browser.InstallOptional = None) ∧
           Browser.markitdown rt = true ∧
           Browser.convert_file_defined rt = true).
Proof.
  exact (provisioner_succeeds_iff_mandatory_steps_do
           (Browser.fail_at Browser.InstallOptional "no wheel")
           Browser.init eq_refl).
Defined.

(** X10. A first-time construction that fails stops at the first
    failing step other than the optional install: the steps recorded
    are those up to and including it, none after it, and the error
    raised is "Failed to initialize Python environment: " followed by
    that step's message. *)
Theorem provisioner_stops_at_first_failure
    (o : Browser.Oracle) (w w1 : Browser.World) (e : Error) :
  Browser.pyodide w = None →
  Browser.loadPyodideEnvironment o w = (w1, inr e) →
  ∃ n s cause,
    Browser.all_steps !! n = Some s ∧ s ≠ Browser.InstallOptional ∧
    o s = Some cause ∧
    (∀ s', s' ∈ take n Browser.all_steps →
           s' ≠ Browser.InstallOptional → o s' = None) ∧
    e = new_Error
          ("Failed to initialize Python environment: " +:+ err_message cause) ∧
    Browser.work w1 = Browser.work w ++ take (S n) Browser.all_steps.
Proof.
  intros Hnone Hrun.
  destruct (loadPyodideEnvironment_stops _ _ _ _ Hnone Hrun)
    as (n & s & cause & Hn & Hs & Hcause & He & Hwork).
  exists n, s, cause. repeat split; try done.
  intros s' Hin Hopt.
  destruct (o s') as [e'|] eqn:Hs'; [|done]. exfalso.
  (* a failing earlier step would have ended the run earlier *)
  assert (∀ k t', Browser.all_steps !! k = Some t' →
                  t' ≠ Browser.InstallOptional → is_Some (o t') →
                  length (Browser.work w1) ≤ length (Browser.work w) + S k)%nat
    as Hfirst.
  { clear -Hnone Hrun. intros k t' Hk Hopt Hfail.
    unfold Browser.loadPyodideEnvironment in Hrun.
    cbv [mbind Browser.M_bind Browser.bind Browser.get Browser.modify
         Browser.finally Browser.try_catch Browser.loadPyodide Browser.step
         Browser.ret Browser.throw mret Browser.M_ret] in Hrun.
    rewrite Hnone in Hrun.
    destruct Hfail as [x Hx].
    destruct k as [|[|[|[|[|[|[|k]]]]]]]; simpl in Hk; simplify_eq;
      repeat match type of Hrun with
             | context [o ?s] =>
                 let H := fresh in destruct (o s) eqn:H; simpl in Hrun;
                 simplify_eq
             end;
      simpl; rewrite ?length_app; simpl; lia. }
  apply list_elem_of_lookup in Hin as [k Hk].
  apply lookup_take_Some in Hk as [Hk Hlt].
  specialize (Hfirst k s' Hk Hopt (ltac:(eauto))).
  rewrite Hwork, length_app, length_take in Hfirst.
  apply lookup_lt_Some in Hn, Hk. lia.
Qed.

Lemma provisioner_stops_at_first_failure_witness :
  ∃ w1 n s cause,
    Browser.all_steps !! n = Some s ∧ s ≠ Browser.InstallOptional ∧
    Browser.fail_at Browser.LoadPackages "404" s = Some cause ∧
    Browser.work w1 = Browser.work Browser.init ++ take (S n) Browser.all_steps.
Proof.
  eexists.
  destruct (provisioner_stops_at_first_failure
              (Browser.fail_at Browser.LoadPackages "404") Browser.init _ _
              eq_refl eq_refl)
    as (n & s & cause & Hn & Hs & Hcause & _ & _ & Hwork).
  exists n, s, cause. by repeat split.
Defined.

(** X11. Whatever its outcome, a call of the provisioner leaves the
    selected file, the processing flag, the result text, the result
    filename and the alerts as they were, leaves every interpreter
    that already existed as it was, and ends with the downloading flag
    off when it started with it off. *)
Theorem provisioner_frame (o : Browser.Oracle) (w : Browser.World) :
  let w1 := (Browser.loadPyodideEnvironment o w).1 in
  Browser.file w1 = Browser.file w ∧
  Browser.isProcessing w1 = Browser.isProcessing w ∧
  Browser.resultText w1 = Browser.resultText w ∧
  Browser.resultFilename w1 = Browser.resultFilename w ∧
  Browser.alerts w1 = Browser.alerts w ∧
  (Browser.isDownloadingModel w = false →
   Browser.isDownloadingModel w1 = false) ∧
  (∀ h r, Browser.heap w !! h = Some r → Browser.heap w1 !! h = Some r).
Proof. apply loadPyodideEnvironment_frame. Qed.

Lemma provisioner_frame_witness :
  Browser.isDownloadingModel
    (Browser.loadPyodideEnvironment
       (Browser.fail_at Browser.LoadPackages "404")
       (Demo.selected "a.pdf" [Byte.x01])).1 = false.
Proof.
  pose proof (provisioner_frame (Browser.fail_at Browser.LoadPackages "404")
                (Demo.selected "a.pdf" [Byte.x01]))
    as (_ & _ & _ & _ & _ & Hflag & _).
  apply Hflag. reflexivity.
Defined.

(** X12. When it is the runtime load itself that fails, nothing is
    cached, so a later call whose mandatory steps succeed constructs
    the environment from scratch: it returns an interpreter with the
    wrapper function, and the runtime load was started twice in
    all. *)
Theorem provisioner_retry_after_runtime_load_failure
    (o1 o2 : Browser.Oracle) (w : Browser.World) :
  Browser.pyodide w = None →
  is_Some (o1 Browser.LoadRuntime) →
  (∀ s, s ≠ Browser.InstallOptional → o2 s = None) →
  let '(w1, r1) := Browser.loadPyodideEnvironment o1 w in
  let '(w2, r2) := Browser.loadPyodideEnvironment o2 w1 in
  (∃ e, r1 = inr e) ∧
  Browser.pyodide w1 = None ∧
  (∃ h rt, r2 = inl h ∧ Browser.pyodide w2 = Some h ∧
           Browser.heap w2 !! h = Some rt ∧
           Browser.convert_file_defined rt = true) ∧
  Browser.work w2 =
    Browser.work w ++ [Browser.LoadRuntime] ++ Browser.all_steps.
Proof.
  intros Hnone [e1 Hfail] Hok.
  rewrite (loadPyodideEnvironment_runtime_load_fails _ _ _ Hnone Hfail).
  set (w1 := Browser.set_isDownloadingModel false _).
  assert (Browser.pyodide w1 = None) as Hnone1 by done.
  destruct (Browser.loadPyodideEnvironment o2 w1) as [w2 r2] eqn:Hrun2.
  assert (∃ h, r2 = inl h) as [h ->].
  { pose proof (proj2 (loadPyodideEnvironment_succeeds_iff o2 w1 Hnone1) Hok)
      as [h Hh]. rewrite Hrun2 in Hh. eauto. }
  destruct (loadPyodideEnvironment_fresh _ _ _ _ Hnone1 Hrun2)
    as (Hc & _ & Hwork2 & (rt & Hrt & Hdef) & _).
  split; [eauto|]. split; [done|]. split; [by exists h, rt|].
  rewrite Hwork2. simpl. by rewrite <- (assoc_L (++)).
Qed.

Lemma provisioner_retry_after_runtime_load_failure_witness :
  let '(w1, r1) :=
    Browser.loadPyodideEnvironment
      (Browser.fail_at Browser.LoadRuntime "offline") Browser.init in
  let '(w2, r2) := Browser.loadPyodideEnvironment Browser.all_ok w1 in
  Browser.pyodide w1 = None ∧
  Browser.work w2 = [Browser.LoadRuntime] ++ Browser.all_steps.
Proof.
  pose proof (provisioner_retry_after_runtime_load_failure
                (Browser.fail_at Browser.LoadRuntime "offline") Browser.all_ok
                Browser.init eq_refl (mk_is_Some _ _ eq_refl) (λ _ _, eq_refl))
    as H.
  destruct (Browser.loadPyodideEnvironment _ Browser.init) as [w1 r1].
  destruct (Browser.loadPyodideEnvironment Browser.all_ok w1) as [w2 r2].
  destruct H as (_ & Hnone & _ & Hwork). by split.
Defined.

(** ** Every path of the conversion call, browser shape *)

Section BrowserConversionOutcomes.

Import Browser.

Variable convert_file : FS → string → PyResult.
Variable writeFile_fault : string → option Error.

Lemma truthy_Some v : JS.truthy v = true → ∃ t, v = Some t ∧ t ≠ "".
Proof.
  destruct v as [t|]; simpl; [|done].
  intros Ht%negb_true_iff%bool_decide_eq_false. eauto.
Qed.

(** The call ends in one of two shapes, on a world that differs from
    the one after provisioning in interpreter objects only: the result
    is set, or one alert is shown. *)
Lemma startConversion_cases o w f :
  file w = Some f →
  ∃ w2,
    file w2 = Some f ∧ resultText w2 = "" ∧
    resultFilename w2 = resultFilename w ∧ alerts w2 = alerts w ∧
    pyodide w2 = pyodide (loadPyodideEnvironment o (entering w)).1 ∧
    ((∃ t, t ≠ "" ∧
        startConversion convert_file writeFile_fault o w =
          (set_isProcessing false
             (set_resultFilename (suggestedFilename (name f))
                (set_resultText t w2)), inl tt)) ∨
     (∃ msg,
        startConversion convert_file writeFile_fault o w =
          (set_isProcessing false
             (alert ("Conversion Failed: " +:+ msg) w2), inl tt))).
Proof.
  intros Hf.
  pose proof (loadPyodideEnvironment_frame o (entering w))
    as (Hfile & _ & Htext & Hname & Halerts & _).
  unfold startConversion.
  cbv [mbind M_bind bind get modify finally try_catch ret throw mret M_ret
       FS_writeFile FS_unlink call_convert_file].
  rewrite Hf. fold (entering w).
  destruct (loadPyodideEnvironment o (entering w)) as [w1 [h|e]]; simpl in *.
  all: rewrite Hf in Hfile.
  2: { exists w1. repeat split; try done. right. by eexists. }
  destruct (writeFile_fault (tempPath (name f))) as [e|].
  { exists w1. repeat split; try done. right. by eexists. }
  simpl.
  destruct (alter _ h (heap w1) !! h) as [r|] eqn:Hr.
  2: { eexists (set_heap _ w1). repeat split; try done. right. by eexists. }
  destruct (convert_file_defined r).
  2: { eexists (set_heap _ w1). repeat split; try done. right. by eexists. }
  destruct (convert_file (rt_FS r) (tempPath (name f))) as [v|e]; simpl.
  2: { eexists (set_heap _ w1). repeat split; try done. right. by eexists. }
  rewrite Hr. simpl.
  destruct (rt_FS r !! tempPath (name f)); simpl.
  - destruct (JS.truthy v) eqn:Hv; simpl.
    + apply truthy_Some in Hv as (t & -> & Ht).
      eexists (set_heap _ (set_heap _ w1)). repeat split; try done.
      left. by exists t.
    + eexists (set_heap _ (set_heap _ w1)). repeat split; try done.
      right. by eexists.
  - destruct (JS.truthy v) eqn:Hv; simpl.
    + apply truthy_Some in Hv as (t & -> & Ht).
      eexists (set_heap _ w1). repeat split; try done. left. by exists t.
    + eexists (set_heap _ w1). repeat split; try done. right. by eexists.
Qed.

End BrowserConversionOutcomes.

(** X13. [startConversion] never throws. Without a selected file it
    does nothing. With one, it ends with the processing flag off and
    the file still selected, and either the result text is non-empty,
    the result filename is the suggested name of that file and no
    alert was added, or the result text is empty, the result filename
    is untouched and exactly one alert starting with "Conversion
    Failed: " was added. *)
Theorem startConversion_outcome
    (convert_file : Browser.FS → string → Browser.PyResult)
    (writeFile_fault : string → option Error)
    (o : Browser.Oracle) (w : Browser.World) :
  let '(w', r) := Browser.startConversion convert_file writeFile_fault o w in
  r = inl tt ∧
  match Browser.file w with
  | None => w' = w
  | Some f =>
      Browser.isProcessing w' = false ∧ Browser.file w' = Some f ∧
      ((Browser.resultText w' ≠ "" ∧
        Browser.resultFilename w' = suggestedFilename (Browser.name f) ∧
        Browser.alerts w' = Browser.alerts w) ∨
       (Browser.resultText w' = "" ∧
        Browser.resultFilename w' = Browser.resultFilename w ∧
        ∃ msg, Browser.alerts w' =
                 Browser.alerts w ++ ["Conversion Failed: " +:+ msg]))
  end.
Proof.
  destruct (Browser.file w) as [f|] eqn:Hf.
  - destruct (startConversion_cases convert_file writeFile_fault o w f Hf)
      as (w2 & Hfile & Htext & Hname & Halerts & _ & [(t & Ht & ->)|(msg & ->)]);
      simpl; (split; [done|]); (split; [done|]); (split; [done|]).
    + left. by rewrite Halerts.
    + right. rewrite Htext, Hname, Halerts. eauto.
  - unfold Browser.startConversion.
    cbv [mbind Browser.M_bind Browser.bind Browser.get]. by rewrite Hf.
Qed.

Section BrowserConversionPaths.

Import Browser.

Variable convert_file : FS → string → PyResult.
Variable writeFile_fault : string → option Error.

Lemma startConversion_provisioning_fails o w f w1 e :
  file w = Some f →
  loadPyodideEnvironment o (entering w) = (w1, inr e) →
  startConversion convert_file writeFile_fault o w =
    (set_isProcessing false
       (alert ("Conversion Failed: " +:+ message_or_error e) w1), inl tt).
Proof.
  intros Hf Hload. unfold startConversion.
  cbv [mbind M_bind bind get modify finally try_catch ret throw mret M_ret].
  rewrite Hf. fold (entering w). by rewrite Hload.
Qed.

Lemma startConversion_write_refused o w f w1 h e :
  file w = Some f →
  loadPyodideEnvironment o (entering w) = (w1, inl h) →
  writeFile_fault (tempPath (name f)) = Some e →
  startConversion convert_file writeFile_fault o w =
    (set_isProcessing false
       (alert ("Conversion Failed: " +:+ message_or_error e) w1), inl tt).
Proof.
  intros Hf Hload Hw. unfold startConversion.
  cbv [mbind M_bind bind get modify finally try_catch ret throw mret M_ret
       FS_writeFile].
  rewrite Hf. fold (entering w). by rewrite Hload, Hw.
Qed.

End BrowserConversionPaths.



(** ** Sessions on the page, browser shape *)

Section PageFacts.

Variable convert_file : Browser.FS → string → Browser.PyResult.
Variable writeFile_fault : string → option Error.

Local Abbreviation act := (Page.act convert_file writeFile_fault).
Local Abbreviation run := (Page.run convert_file writeFile_fault).

Lemma suggestedFilename_nonempty name : suggestedFilename name ≠ "".
Proof.
  unfold suggestedFilename. generalize (JS.join_dot
    (if bool_decide (1 < length (JS.split_dot name))%nat
     then (JS.pop (JS.split_dot name)).2 else JS.split_dot name)).
  intros s. by destruct s.
Qed.

(** Between two events nothing is being processed, and a result on
    show is the result for the selected file. *)
Lemma page_step_consistent a p :
  (Browser.isProcessing (Page.world p) = false ∧
   (Browser.resultText (Page.world p) ≠ "" →
    ∃ f, Browser.file (Page.world p) = Some f ∧
         Browser.resultFilename (Page.world p) =
           suggestedFilename (Browser.name f))) →
  Browser.isProcessing (Page.world (act a p)) = false ∧
  (Browser.resultText (Page.world (act a p)) ≠ "" →
   ∃ f, Browser.file (Page.world (act a p)) = Some f ∧
        Browser.resultFilename (Page.world (act a p)) =
          suggestedFilename (Browser.name f)).
Proof.
  intros [Hproc Hres].
  assert (∀ o f q,
    Browser.isProcessing
      (Page.world (Page.setFile convert_file writeFile_fault o f q)) = false ∧
    (Browser.resultText
       (Page.world (Page.setFile convert_file writeFile_fault o f q)) ≠ "" →
     ∃ f',
       Browser.file
         (Page.world (Page.setFile convert_file writeFile_fault o f q)) =
         Some f' ∧
       Browser.resultFilename
         (Page.world (Page.setFile convert_file writeFile_fault o f q)) =
         suggestedFilename (Browser.name f'))) as HsetFile.
  { intros o f q. unfold Page.setFile.
    destruct (startConversion_cases convert_file writeFile_fault o
                (Browser.set_resultFilename ""
                   (Browser.set_resultText ""
                      (Browser.set_file (Some f) (Page.world q)))) f eq_refl)
      as (w2 & Hfile & Htext & _ & _ & _ & [(t & Ht & ->)|(msg & ->)]); simpl.
    - split; [done|]. intros _. by exists f.
    - split; [done|]. by rewrite Htext. }
  destruct a as [o files|o files| | | | | |]; simpl; try done.
  - unfold Page.handleDrop. destruct (Page.first_of files); [apply HsetFile|done].
  - unfold Page.handleFileChange.
    destruct (Page.first_of files); [apply HsetFile|done].
  - unfold Page.copyToClipboard. by case_bool_decide.
  - unfold Page.downloadFile. by case_bool_decide.
Qed.

Lemma page_run_consistent actions :
  Browser.isProcessing (Page.world (run actions)) = false ∧
  (Browser.resultText (Page.world (run actions)) ≠ "" →
   ∃ f, Browser.file (Page.world (run actions)) = Some f ∧
        Browser.resultFilename (Page.world (run actions)) =
          suggestedFilename (Browser.name f)).
Proof.
  unfold Page.run.
  induction actions as [|a actions IH] using rev_ind; [done|].
  rewrite foldl_app. simpl. by apply page_step_consistent.
Qed.

End PageFacts.

(** X16. In every session on the page, between two events the
    processing flag is off, and whenever a result text is on show a
    file is selected and the result filename is the suggested name of
    that file: selecting, dropping or removing a file never leaves the
    result of another file behind. *)
Theorem page_result_belongs_to_selected_file
    (convert_file : Browser.FS → string → Browser.PyResult)
    (writeFile_fault : string → option Error)
    (actions : list Page.Action) :
  let w := Page.world (Page.run convert_file writeFile_fault actions) in
  Browser.isProcessing w = false ∧
  (Browser.resultText w ≠ "" →
   ∃ f, Browser.file w = Some f ∧
        Browser.resultFilename w = suggestedFilename (Browser.name f)).
Proof. apply page_run_consistent. Qed.

Lemma page_result_belongs_to_selected_file_witness :
  let w := Page.world
             (Page.run Demo.convert_file Demo.writeFile_fault
                [Page.FileChange Browser.all_ok
                   (Some [Browser.mkFile "report.v2.pdf" [Byte.x25]])]) in
  ∃ f, Browser.file w = Some f ∧
       Browser.resultFilename w = suggestedFilename (Browser.name f).
Proof.
  pose proof (page_result_belongs_to_selected_file Demo.convert_file
                Demo.writeFile_fault
                [Page.FileChange Browser.all_ok
                   (Some [Browser.mkFile "report.v2.pdf" [Byte.x25]])])
    as [_ Hres].
  apply Hres. vm_compute. discriminate.
Defined.

(** X17. In every session on the page, a download is offered under
    the suggested name of the selected file with the result text as
    its content; the fallback name "converted.md" is never used, and
    without a result nothing is downloaded. *)
Theorem page_download_uses_suggested_name
    (convert_file : Browser.FS → string → Browser.PyResult)
    (writeFile_fault : string → option Error)
    (actions : list Page.Action) :
  let p := Page.run convert_file writeFile_fault actions in
  let text := Browser.resultText (Page.world p) in
  if bool_decide (text = "") then Page.downloadFile p = p
  else ∃ f, Browser.file (Page.world p) = Some f ∧
            Browser.resultFilename (Page.world p) ≠ "" ∧
            Page.downloadFile p =
              Page.add_download (suggestedFilename (Browser.name f), text) p.
Proof.
  intros p text. subst text.
  destruct (page_run_consistent convert_file writeFile_fault actions)
    as [_ Hres]. fold p in Hres.
  unfold Page.downloadFile. case_bool_decide as Htext; [done|].
  destruct (Hres Htext) as (f & Hf & Hname). exists f.
  pose proof (suggestedFilename_nonempty (Browser.name f)) as Hne.
  rewrite Hname. split; [done|]. split; [done|].
  by rewrite bool_decide_eq_false_2.
Qed.

Example page_session_example :
  Page.downloads
    (Page.run Demo.convert_file Demo.writeFile_fault
       [Page.DragOver;
        Page.Drop Browser.all_ok
          (Some [Browser.mkFile "report.v2.pdf" [Byte.x25];
                 Browser.mkFile "second.docx" [Byte.x50]]);
        Page.Download;
        Page.Remove;
        Page.Download]) = [("report.v2.md", "# Title")].
Proof. vm_compute. reflexivity. Qed.

(** ** Sessions on the page, server shape *)

Section NuxtFacts.

Variable fetch : Browser.File → Nuxt.FetchOutcome.

(** A result on show was fetched for a file, is named after that file,
    and that file is still the selected one unless it was removed. *)
Lemma nuxt_step_named a p :
  (JS.truthy (Nuxt.resultText p) = true →
   ∃ f data,
     fetch f = Nuxt.Fetched data ∧ Nuxt.success data = true ∧
     Nuxt.resultText p = Nuxt.textContent data ∧
     Nuxt.resultFilename p = suggestedFilename (Browser.name f) ∧
     (Nuxt.file p = Some f ∨ Nuxt.file p = None)) →
  JS.truthy (Nuxt.resultText (Nuxt.act fetch a p)) = true →
  ∃ f data,
    fetch f = Nuxt.Fetched data ∧ Nuxt.success data = true ∧
    Nuxt.resultText (Nuxt.act fetch a p) = Nuxt.textContent data ∧
    Nuxt.resultFilename (Nuxt.act fetch a p) =
      suggestedFilename (Browser.name f) ∧
    (Nuxt.file (Nuxt.act fetch a p) = Some f ∨
     Nuxt.file (Nuxt.act fetch a p) = None).
Proof.
  intros Hres.
  destruct a as [files| | | | |]; simpl.
  - unfold Nuxt.handleFiles. by destruct (files ≫= head).
  - intros Ht. destruct (Hres Ht) as (f & data & ? & ? & ? & ? & _).
    exists f, data. repeat split; auto.
  - unfold Nuxt.startConversion. destruct (Nuxt.file p) as [f|] eqn:Hf.
    + destruct (fetch f) as [data|m] eqn:Hfetch; simpl; [|done].
      destruct (Nuxt.success data) eqn:Hok; simpl; [|done].
      intros _. exists f, data. repeat split; auto.
    + intros Ht. destruct (Hres Ht) as (f & data & ? & ? & ? & ? & _).
      exists f, data. repeat split; auto.
  - done.
  - unfold Nuxt.copyToClipboard.
    destruct (JS.truthy (Nuxt.resultText p)) eqn:Ht; simpl;
      [intros _; by apply Hres | congruence].
  - unfold Nuxt.downloadFile.
    destruct (JS.truthy (Nuxt.resultText p)) eqn:Ht; simpl;
      [intros _; by apply Hres | congruence].
Qed.

Lemma nuxt_run_named actions :
  JS.truthy (Nuxt.resultText (Nuxt.run fetch actions)) = true →
  ∃ f data,
    fetch f = Nuxt.Fetched data ∧ Nuxt.success data = true ∧
    Nuxt.resultText (Nuxt.run fetch actions) = Nuxt.textContent data ∧
    Nuxt.resultFilename (Nuxt.run fetch actions) =
      suggestedFilename (Browser.name f) ∧
    (Nuxt.file (Nuxt.run fetch actions) = Some f ∨
     Nuxt.file (Nuxt.run fetch actions) = None).
Proof.
  unfold Nuxt.run.
  induction actions as [|a actions IH] using rev_ind; [done|].
  rewrite foldl_app. simpl. by apply nuxt_step_named.
Qed.

End NuxtFacts.


Example nuxt_session_example :
  let fetch (f : Browser.File) :=
    Nuxt.Fetched (Nuxt.mkData true (Some "# Title") (Some (Browser.name f))) in
  let p :=
    Nuxt.run fetch
      [Nuxt.Files (Some [Browser.mkFile "report.v2.pdf" [Byte.x25]]);
       Nuxt.Download; Nuxt.Convert; Nuxt.Remove; Nuxt.Download] in
  Nuxt.downloads p = [("report.v2.md", "# Title")] ∧ Nuxt.file p = None.
Proof. vm_compute. split; reflexivity. Qed.

(** ** The interactions of the request handler *)

(** X19. The handler touches the converter and the file system in one
    of three ways only: not at all (the reader rejected, no file part,
    or no path), or it constructs the converter and then checks the
    uploaded path (the constructor threw), or it constructs the
    converter, converts the uploaded path once, with the hint computed
    from the original filename, and then checks the uploaded path. *)
Theorem handler_interactions
    (Request : Type)
    (readFiles : Request → Server.Options → Server.FS →
                 Server.FS * Server.ReadOutcome)
    (new_MarkItDown : option Error)
    (convert : Server.FS → string → JS.value → Server.ConvertOutcome)
    (event : Request) (fs : Server.FS) :
  let events :=
    (Server.handler Request readFiles new_MarkItDown convert event fs).1.2 in
  match (Server.staged_upload Request readFiles event fs).2 with
  | Some up =>
      if JS.truthy (Server.filepath up) then
        let path := JS.to_string (Server.filepath up) in
        match new_MarkItDown with
        | Some _ => events = [Server.NewMarkItDown; Server.ExistsSync path]
        | None =>
            events =
              [Server.NewMarkItDown;
               Server.Convert path (fileExtension (Server.originalFilename up));
               Server.ExistsSync path]
        end
      else events = []
  | None => events = []
  end.
Proof.
  unfold Server.staged_upload, Server.handler.
  destruct (readFiles event Server.readFiles_options fs) as [fs1 [e|files]];
    simpl; [done|].
  destruct (Server.first_file files) as [up|]; simpl; [|done].
  destruct (JS.truthy (Server.filepath up)); simpl; [|done].
  unfold Server.try_block.
  destruct new_MarkItDown as [e|]; simpl; [done|].
  by destruct (convert fs1 _ _) as [m|[result|]].
Qed.

(** ** One interpreter for all conversions *)

Section InterpreterLifetime.

Variable convert_file : Browser.FS → string → Browser.PyResult.
Variable writeFile_fault : string → option Error.

Lemma startConversion_keeps_interpreter o w h :
  Browser.pyodide w = Some h →
  Browser.pyodide (Browser.startConversion convert_file writeFile_fault o w).1 =
    Some h.
Proof.
  intros Hc. destruct (Browser.file w) as [f|] eqn:Hf.
  - destruct (startConversion_cases convert_file writeFile_fault o w f Hf)
      as (w2 & _ & _ & _ & _ & Hp & [(t & _ & ->)|(msg & ->)]); simpl;
      rewrite Hp;
      by rewrite (loadPyodideEnvironment_cached o (Browser.entering w) h Hc).
  - unfold Browser.startConversion.
    cbv [mbind Browser.M_bind Browser.bind Browser.get]. by rewrite Hf.
Qed.

Lemma page_step_keeps_interpreter a p h :
  Browser.pyodide (Page.world p) = Some h →
  Browser.pyodide (Page.world (Page.act convert_file writeFile_fault a p)) =
    Some h.
Proof.
  intros Hc.
  assert (∀ o f q, Browser.pyodide (Page.world q) = Some h →
            Browser.pyodide
              (Page.world (Page.setFile convert_file writeFile_fault o f q)) =
            Some h) as HsetFile.
  { intros o f q Hq. unfold Page.setFile. simpl.
    by apply startConversion_keeps_interpreter. }
  destruct a as [o files|o files| | | | | |]; simpl; try done.
  - unfold Page.handleDrop.
    destruct (Page.first_of files); [by apply HsetFile|done].
  - unfold Page.handleFileChange.
    destruct (Page.first_of files); [by apply HsetFile|done].
  - unfold Page.copyToClipboard. by case_bool_decide.
  - unfold Page.downloadFile. by case_bool_decide.
Qed.

End InterpreterLifetime.

(** X20. Once an interpreter is cached it is never replaced: in every
    sequence of page events, each run to completion before the next,
    whatever the user does next on the page and whatever the network
    does, the module variable still refers to the same interpreter. *)
Theorem page_interpreter_never_replaced
    (convert_file : Browser.FS → string → Browser.PyResult)
    (writeFile_fault : string → option Error)
    (before after : list Page.Action) (h : nat) :
  Browser.pyodide
    (Page.world (Page.run convert_file writeFile_fault before)) = Some h →
  Browser.pyodide
    (Page.world (Page.run convert_file writeFile_fault (before ++ after))) =
    Some h.
Proof.
  intros Hc. unfold Page.run in *. rewrite foldl_app.
  generalize dependent (foldl (λ p a, Page.act convert_file writeFile_fault a p)
                          Page.init before).
  induction after as [|a after IH]; intros p Hc; simpl; [done|].
  apply IH. by apply page_step_keeps_interpreter.
Qed.

Lemma page_interpreter_never_replaced_witness :
  Browser.pyodide
    (Page.world
       (Page.run Demo.convert_file Demo.writeFile_fault
          ([Page.FileChange (Browser.fail_at Browser.LoadPackages "404")
              (Some [Browser.mkFile "a.pdf" [Byte.x01]])] ++
           [Page.Remove;
            Page.Drop Browser.all_ok
              (Some [Browser.mkFile "b.pdf" [Byte.x02]])]))) = Some 0%nat.
Proof.
  apply (page_interpreter_never_replaced Demo.convert_file Demo.writeFile_fault).
  vm_compute. reflexivity.
Defined.
